(** * Tech climate platform: the thermostat adapter of [custom_components/tech/climate.py]

    A shallow embedding of the module's setup routine and of the
    [TechThermostat] entity, and the properties of its state derivation,
    refresh and command methods.

    Python objects are modelled as follows.
    - JSON-like values ([dict[str, Any]] snapshots, keyword arguments) are the
      inductive [pyval]; a dict is an association list read from the left.
    - A Python [float] is a binary64 primitive float; [int / 10] is the
      correctly rounded quotient, computed with the Standard Library's
      [SpecFloat] operations.
    - A method that mutates [self], calls the API client or logs is a
      computation in the monad [Py S], which threads a state and either
      returns or raises.  The state survives a raise, as the fields of a
      Python object assigned before an exception do.
    - The API client is an oracle answering each call from the history of the
      calls made so far; every call is recorded in [calls]. *)

From Stdlib Require Import ZArith String List Bool Lia.
From Stdlib Require Import Floats.PrimFloat Floats.SpecFloat Floats.FloatOps.
Import ListNotations.

Set Warnings "-inexact-float,-register-all".
Local Open Scope string_scope.
Local Open Scope Z_scope.
Local Open Scope list_scope.

(** ** Values and exceptions *)

Inductive pyval : Type :=
| VNone
| VBool (b : bool)
| VInt (z : Z)
| VFloat (f : float)
| VStr (s : string)
| VList (l : list pyval)
| VDict (d : list (string * pyval)).

(** The exceptions the module can meet.  [BaseExceptionOnly] stands for the
    classes that derive from [BaseException] but not from [Exception]
    (task cancellation, interpreter exit): [except Exception] lets them
    through. *)
Inductive exn : Type :=
| KeyError (key : string)
| TypeError (msg : string)
| OverflowError (msg : string)
| OtherException (cls : string)
| BaseExceptionOnly (cls : string).

Definition is_Exception (e : exn) : bool :=
  match e with
  | BaseExceptionOnly _ => false
  | _ => true
  end.

Inductive result (A : Type) : Type :=
| Ok (a : A)
| Raise (e : exn).
Arguments Ok {A} a.
Arguments Raise {A} e.

(** ** The monad of Python computations over a state [S] *)

Definition Py (S A : Type) : Type := S -> S * result A.

Definition ret {S A} (a : A) : Py S A := fun s => (s, Ok a).

Definition bind {S A B} (c : Py S A) (k : A -> Py S B) : Py S B :=
  fun s =>
    match c s with
    | (s', Ok a) => k a s'
    | (s', Raise e) => (s', Raise e)
    end.

Definition get {S} : Py S S := fun s => (s, Ok s).

Definition modify {S} (f : S -> S) : Py S unit := fun s => (f s, Ok tt).

(** An expression that only computes: its outcome does not touch the state. *)
Definition pure {S A} (r : result A) : Py S A := fun s => (s, r).

(** [try: c  except Exception as ex: handler ex]. *)
Definition try_except {S A} (c : Py S A) (handler : exn -> Py S A) : Py S A :=
  fun s =>
    match c s with
    | (s', Ok a) => (s', Ok a)
    | (s', Raise e) => if is_Exception e then handler e s' else (s', Raise e)
    end.

Definition lift_fst {S T A} (c : Py S A) : Py (S * T) A :=
  fun st => let (s', r) := c (fst st) in ((s', snd st), r).

Definition lift_snd {S T A} (c : Py T A) : Py (S * T) A :=
  fun st => let (t', r) := c (snd st) in ((fst st, t'), r).

Declare Scope py_scope.
Delimit Scope py_scope with py.
Notation "x <- c ;; k" := (bind c (fun x => k))
  (at level 100, c at next level, right associativity) : py_scope.
Notation "c ;; k" := (bind c (fun _ => k))
  (at level 100, right associativity) : py_scope.
Local Open Scope py_scope.

(** ** Operations on values *)

Fixpoint dict_get {K V : Type} (eqb : K -> K -> bool) (d : list (K * V)) (k : K)
  : option V :=
  match d with
  | [] => None
  | (k', v) :: rest => if eqb k' k then Some v else dict_get eqb rest k
  end.

(** [v[key]] for a string key: a lookup in a dict, a [TypeError] on anything
    else (a list or a string wants an integer index, the other values are
    not subscriptable). *)
Definition getitem (v : pyval) (key : string) : result pyval :=
  match v with
  | VDict d =>
      match dict_get String.eqb d key with
      | Some x => Ok x
      | None => Raise (KeyError key)
      end
  | _ => Raise (TypeError "not subscriptable by str")
  end.

Definition is_not_None (v : pyval) : bool :=
  match v with
  | VNone => false
  | _ => true
  end.

(** [v == s] for a string literal [s]. *)
Definition eq_str (v : pyval) (s : string) : bool :=
  match v with
  | VStr t => String.eqb t s
  | _ => false
  end.

(** [v in [s1, s2, ...]] for string literals. *)
Definition in_strs (v : pyval) (l : list string) : bool :=
  existsb (eq_str v) l.

Definition SF_of_Z (z : Z) : spec_float :=
  match z with
  | Z0 => S754_zero false
  | Zpos p => S754_finite false p 0
  | Zneg p => S754_finite true p 0
  end.

(** [a / b] on Python ints, [b] non-zero: the quotient rounded once to the
    nearest binary64, [OverflowError] when it is too large for a float. *)
Definition int_truediv (a b : Z) : result pyval :=
  match SFdiv prec emax (SF_of_Z a) (SF_of_Z b) with
  | S754_infinity _ => Raise (OverflowError "integer division result too large for a float")
  | q => Ok (VFloat (SF2Prim q))
  end.

(** [v / 10]. *)
Definition truediv_10 (v : pyval) : result pyval :=
  match v with
  | VInt z => int_truediv z 10
  | VBool b => int_truediv (if b then 1 else 0) 10
  | VFloat f => Ok (VFloat (f / 10)%float)
  | _ => Raise (TypeError "unsupported operand type(s) for /")
  end.

(** ** The host's enumerations (string-valued) *)

Inductive HVACMode : Type :=
| HVACMode_OFF | HVACMode_HEAT | HVACMode_COOL | HVACMode_HEAT_COOL
| HVACMode_AUTO | HVACMode_DRY | HVACMode_FAN_ONLY.

Definition HVACMode_value (m : HVACMode) : string :=
  match m with
  | HVACMode_OFF => "off"
  | HVACMode_HEAT => "heat"
  | HVACMode_COOL => "cool"
  | HVACMode_HEAT_COOL => "heat_cool"
  | HVACMode_AUTO => "auto"
  | HVACMode_DRY => "dry"
  | HVACMode_FAN_ONLY => "fan_only"
  end.

Inductive HVACAction : Type :=
| HVACAction_COOLING | HVACAction_DEFROSTING | HVACAction_DRYING
| HVACAction_FAN | HVACAction_HEATING | HVACAction_IDLE | HVACAction_OFF
| HVACAction_PREHEATING.

Definition HVACAction_value (a : HVACAction) : string :=
  match a with
  | HVACAction_COOLING => "cooling"
  | HVACAction_DEFROSTING => "defrosting"
  | HVACAction_DRYING => "drying"
  | HVACAction_FAN => "fan"
  | HVACAction_HEATING => "heating"
  | HVACAction_IDLE => "idle"
  | HVACAction_OFF => "off"
  | HVACAction_PREHEATING => "preheating"
  end.

Definition ATTR_TEMPERATURE : string := "temperature".

Definition SUPPORT_HVAC : list HVACMode := [HVACMode_HEAT; HVACMode_OFF].

(** ** The API client and the logger *)

Inductive api_call : Type :=
| Call_get_module_zones (udid : pyval)
| Call_get_zone (udid id : pyval)
| Call_set_const_temp (udid id temperature : pyval)
| Call_set_zone (udid id : pyval) (on : bool).

(** The client of the vendor API ([tech.Tech]) as the adapter sees it: what
    each method answers, given the calls made before it. *)
Record Tech : Type := {
  Tech_get_module_zones : list api_call -> pyval -> result (list (Z * pyval));
  Tech_get_zone : list api_call -> pyval -> pyval -> result pyval;
  Tech_set_const_temp : list api_call -> pyval -> pyval -> pyval -> result unit;
  Tech_set_zone : list api_call -> pyval -> pyval -> bool -> result unit
}.

Inductive log_arg : Type :=
| ArgVal (v : pyval)
| ArgStr (s : string)
| ArgExn (e : exn).

Record log_record : Type := {
  log_msg : string;
  log_args : list log_arg
}.

(** What a call leaves outside the entity: the calls that reached the API
    client and the records given to [_LOGGER.error]. *)
Record io : Type := {
  calls : list api_call;
  logged : list log_record
}.

Definition await_api {A} (c : api_call) (answer : list api_call -> result A)
  : Py io A :=
  fun w => ({| calls := calls w ++ [c]; logged := logged w |}, answer (calls w)).

Definition get_module_zones (api : Tech) (udid : pyval) :=
  await_api (Call_get_module_zones udid) (fun h => Tech_get_module_zones api h udid).

Definition get_zone (api : Tech) (udid id : pyval) :=
  await_api (Call_get_zone udid id) (fun h => Tech_get_zone api h udid id).

Definition set_const_temp (api : Tech) (udid id temperature : pyval) :=
  await_api (Call_set_const_temp udid id temperature)
            (fun h => Tech_set_const_temp api h udid id temperature).

Definition set_zone (api : Tech) (udid id : pyval) (on : bool) :=
  await_api (Call_set_zone udid id on) (fun h => Tech_set_zone api h udid id on).

Definition LOGGER_error (msg : string) (args : list log_arg) : Py io unit :=
  modify (fun w => {| calls := calls w;
                      logged := logged w ++ [{| log_msg := msg; log_args := args |}] |}).

(** ** The entity *)

(** The instance attributes of a [TechThermostat].  [_attr_unique_id] keeps
    the two values interpolated by [f"{udid}_{id}"]; [_attr_device_info_name]
    is the only entry of [_attr_device_info] read from the snapshot. *)
Record TechThermostat : Type := {
  _api : Tech;
  _id : pyval;
  _udid : pyval;
  _attr_unique_id : pyval * pyval;
  _attr_device_info_name : pyval;
  _attr_name : pyval;
  _attr_target_temperature : pyval;
  _attr_current_temperature : pyval;
  _attr_current_humidity : pyval;
  _attr_hvac_action : option HVACAction;
  _attr_hvac_mode : HVACMode
}.

Definition set_attr_name (v : pyval) (t : TechThermostat) : TechThermostat :=
  {| _api := _api t; _id := _id t; _udid := _udid t;
     _attr_unique_id := _attr_unique_id t;
     _attr_device_info_name := _attr_device_info_name t;
     _attr_name := v;
     _attr_target_temperature := _attr_target_temperature t;
     _attr_current_temperature := _attr_current_temperature t;
     _attr_current_humidity := _attr_current_humidity t;
     _attr_hvac_action := _attr_hvac_action t;
     _attr_hvac_mode := _attr_hvac_mode t |}.

Definition set_attr_target_temperature (v : pyval) (t : TechThermostat) :=
  {| _api := _api t; _id := _id t; _udid := _udid t;
     _attr_unique_id := _attr_unique_id t;
     _attr_device_info_name := _attr_device_info_name t;
     _attr_name := _attr_name t;
     _attr_target_temperature := v;
     _attr_current_temperature := _attr_current_temperature t;
     _attr_current_humidity := _attr_current_humidity t;
     _attr_hvac_action := _attr_hvac_action t;
     _attr_hvac_mode := _attr_hvac_mode t |}.

Definition set_attr_current_temperature (v : pyval) (t : TechThermostat) :=
  {| _api := _api t; _id := _id t; _udid := _udid t;
     _attr_unique_id := _attr_unique_id t;
     _attr_device_info_name := _attr_device_info_name t;
     _attr_name := _attr_name t;
     _attr_target_temperature := _attr_target_temperature t;
     _attr_current_temperature := v;
     _attr_current_humidity := _attr_current_humidity t;
     _attr_hvac_action := _attr_hvac_action t;
     _attr_hvac_mode := _attr_hvac_mode t |}.

Definition set_attr_current_humidity (v : pyval) (t : TechThermostat) :=
  {| _api := _api t; _id := _id t; _udid := _udid t;
     _attr_unique_id := _attr_unique_id t;
     _attr_device_info_name := _attr_device_info_name t;
     _attr_name := _attr_name t;
     _attr_target_temperature := _attr_target_temperature t;
     _attr_current_temperature := _attr_current_temperature t;
     _attr_current_humidity := v;
     _attr_hvac_action := _attr_hvac_action t;
     _attr_hvac_mode := _attr_hvac_mode t |}.

Definition set_attr_hvac_action (a : HVACAction) (t : TechThermostat) :=
  {| _api := _api t; _id := _id t; _udid := _udid t;
     _attr_unique_id := _attr_unique_id t;
     _attr_device_info_name := _attr_device_info_name t;
     _attr_name := _attr_name t;
     _attr_target_temperature := _attr_target_temperature t;
     _attr_current_temperature := _attr_current_temperature t;
     _attr_current_humidity := _attr_current_humidity t;
     _attr_hvac_action := Some a;
     _attr_hvac_mode := _attr_hvac_mode t |}.

Definition set_attr_hvac_mode (m : HVACMode) (t : TechThermostat) :=
  {| _api := _api t; _id := _id t; _udid := _udid t;
     _attr_unique_id := _attr_unique_id t;
     _attr_device_info_name := _attr_device_info_name t;
     _attr_name := _attr_name t;
     _attr_target_temperature := _attr_target_temperature t;
     _attr_current_temperature := _attr_current_temperature t;
     _attr_current_humidity := _attr_current_humidity t;
     _attr_hvac_action := _attr_hvac_action t;
     _attr_hvac_mode := m |}.

(** [TechThermostat.update_properties], statement by statement. *)
Definition update_properties (device : pyval) : Py TechThermostat unit :=
  description <- pure (getitem device "description") ;;
  name <- pure (getitem description "name") ;;
  modify (set_attr_name name) ;;
  zone <- pure (getitem device "zone") ;;
  setTemperature <- pure (getitem zone "setTemperature") ;;
  (if is_not_None setTemperature then
     setTemperature <- pure (getitem zone "setTemperature") ;;
     q <- pure (truediv_10 setTemperature) ;;
     modify (set_attr_target_temperature q)
   else ret tt) ;;
  currentTemperature <- pure (getitem zone "currentTemperature") ;;
  (if is_not_None currentTemperature then
     currentTemperature <- pure (getitem zone "currentTemperature") ;;
     q <- pure (truediv_10 currentTemperature) ;;
     modify (set_attr_current_temperature q)
   else ret tt) ;;
  humidity <- pure (getitem zone "humidity") ;;
  (if is_not_None humidity then
     humidity <- pure (getitem zone "humidity") ;;
     modify (set_attr_current_humidity humidity)
   else ret tt) ;;
  flags <- pure (getitem zone "flags") ;;
  state <- pure (getitem flags "relayState") ;;
  (if eq_str state "on" then modify (set_attr_hvac_action HVACAction_HEATING)
   else if eq_str state "off" then modify (set_attr_hvac_action HVACAction_IDLE)
   else modify (set_attr_hvac_action HVACAction_OFF)) ;;
  mode <- pure (getitem zone "zoneState") ;;
  modify (set_attr_hvac_mode
            (if in_strs mode ["zoneOn"; "noAlarm"] then HVACMode_HEAT else HVACMode_OFF)).

(** Sequencing of plain outcomes, for code that has no object to mutate yet. *)
Definition and_then {A B} (r : result A) (k : A -> result B) : result B :=
  match r with
  | Ok a => k a
  | Raise e => Raise e
  end.

(** [TechThermostat.__init__]: the object exists only if no statement of the
    constructor raises. *)
Definition TechThermostat_init (device : pyval) (api : Tech) (udid : pyval)
  : result TechThermostat :=
  and_then (getitem device "zone") (fun zone =>
  and_then (getitem zone "id") (fun id =>
  and_then (getitem device "zone") (fun zone' =>
  and_then (getitem zone' "id") (fun id' =>
  and_then (getitem device "description") (fun description =>
  and_then (getitem description "name") (fun name =>
  let self :=
    {| _api := api; _id := id; _udid := udid;
       _attr_unique_id := (udid, id');
       _attr_device_info_name := name;
       _attr_name := VNone;
       _attr_target_temperature := VNone;
       _attr_current_temperature := VNone;
       _attr_current_humidity := VNone;
       _attr_hvac_action := None;
       _attr_hvac_mode := HVACMode_OFF |} in
  match update_properties device self with
  | (self', Ok _) => Ok self'
  | (_, Raise e) => Raise e
  end)))))).

(** The state of a method call: the entity and the outside. *)
Definition adapter_state : Type := TechThermostat * io.

(** [TechThermostat.async_update]. *)
Definition async_update : Py adapter_state unit :=
  try_except
    (self <- lift_fst get ;;
     device <- lift_snd (get_zone (_api self) (_udid self) (_id self)) ;;
     lift_fst (update_properties device))
    (fun ex =>
       self <- lift_fst get ;;
       lift_snd (LOGGER_error "Failed to update Tech zone %s: %s"
                              [ArgVal (_attr_name self); ArgExn ex])).

(** [kwargs.get(key)]. *)
Definition kwargs_get (kwargs : list (string * pyval)) (key : string) : pyval :=
  match dict_get String.eqb kwargs key with
  | Some v => v
  | None => VNone
  end.

(** [TechThermostat.async_set_temperature]. *)
Definition async_set_temperature (kwargs : list (string * pyval))
  : Py adapter_state unit :=
  let temperature := kwargs_get kwargs ATTR_TEMPERATURE in
  if is_not_None temperature then
    try_except
      (self <- lift_fst get ;;
       lift_snd (set_const_temp (_api self) (_udid self) (_id self) temperature))
      (fun ex =>
         self <- lift_fst get ;;
         lift_snd (LOGGER_error "Failed to set temperature for %s to %s: %s"
                                [ArgVal (_attr_name self); ArgVal temperature; ArgExn ex]))
  else ret tt.

(** [TechThermostat.async_set_hvac_mode]. *)
Definition async_set_hvac_mode (hvac_mode : string) : Py adapter_state unit :=
  try_except
    (self <- lift_fst get ;;
     lift_snd (set_zone (_api self) (_udid self) (_id self)
                        (String.eqb hvac_mode (HVACMode_value HVACMode_HEAT))))
    (fun ex =>
       self <- lift_fst get ;;
       lift_snd (LOGGER_error "Failed to set hvac mode for %s to %s: %s"
                              [ArgVal (_attr_name self); ArgStr hvac_mode; ArgExn ex])).

(** ** The setup routine *)

Record HomeAssistant : Type := {
  hass_data : list (string * list (string * Tech))
}.

Record ConfigEntry : Type := {
  entry_id : string;
  entry_data : pyval
}.

Definition lookup {V} (d : list (string * V)) (key : string) : result V :=
  match dict_get String.eqb d key with
  | Some v => Ok v
  | None => Raise (KeyError key)
  end.

(** [zones[zone]] on the mapping from zone id to snapshot. *)
Definition zones_getitem (zones : list (Z * pyval)) (zone : Z) : result pyval :=
  match dict_get Z.eqb zones zone with
  | Some v => Ok v
  | None => Raise (KeyError "zone")
  end.

(** What iterating a generator to its end gives: the items it yields and, if
    the computation of an item raised, the exception that ended it. *)
Definition generator : Type := list TechThermostat * option exn.

(** [TechThermostat(zones[zone], api, udid) for zone in keys]: nothing is
    built here, the items are built when the consumer iterates. *)
Fixpoint genexpr (zones : list (Z * pyval)) (api : Tech) (udid : pyval)
         (keys : list Z) : generator :=
  match keys with
  | [] => ([], None)
  | zone :: rest =>
      match and_then (zones_getitem zones zone)
                     (fun device => TechThermostat_init device api udid) with
      | Ok entity =>
          let (entities, ex) := genexpr zones api udid rest in
          (entity :: entities, ex)
      | Raise e => ([], Some e)
      end
  end.

Definition dict_keys {K V} (d : list (K * V)) : list K := map fst d.

(** [async_setup_entry].  [DOMAIN] comes from the package's [const] module;
    [Host] is the state of the host's entity platform, which only the
    callback [async_add_entities] touches. *)
Definition async_setup_entry (DOMAIN : string) {Host : Type}
           (hass : HomeAssistant) (entry : ConfigEntry)
           (async_add_entities : generator -> Py Host unit)
  : Py (Host * io) bool :=
  apis <- pure (lookup (hass_data hass) DOMAIN) ;;
  api <- pure (lookup apis (entry_id entry)) ;;
  module <- pure (getitem (entry_data entry) "module") ;;
  udid <- pure (getitem module "udid") ;;
  try_except
    (zones <- lift_snd (get_module_zones api udid) ;;
     lift_fst (async_add_entities (genexpr zones api udid (dict_keys zones))) ;;
     ret true)
    (fun ex =>
       lift_snd (LOGGER_error "Failed to set up Tech climate: %s" [ArgExn ex]) ;;
       ret false).

(** ** Reading a snapshot *)

(** [v[k1][k2]...], when every subscript succeeds. *)
Fixpoint getpath (v : pyval) (path : list string) : option pyval :=
  match path with
  | [] => Some v
  | key :: rest =>
      match getitem v key with
      | Ok x => getpath x rest
      | Raise _ => None
      end
  end.

(** A source value is absent (its key, or a dict on the way to it, is
    missing) or null. *)
Definition absent_or_null (o : option pyval) : Prop :=
  o = None \/ o = Some VNone.

(** [v] is null, or a value that [/ 10] turns into a float. *)
Definition tenths_ok (v : pyval) : bool :=
  if is_not_None v then
    match truediv_10 v with
    | Ok _ => true
    | Raise _ => false
    end
  else true.

(** A snapshot that carries every field the derivation reads, the two
    temperatures null or numeric. *)
Definition well_formed (device : pyval) : bool :=
  match getpath device ["description"; "name"],
        getpath device ["zone"; "setTemperature"],
        getpath device ["zone"; "currentTemperature"],
        getpath device ["zone"; "humidity"],
        getpath device ["zone"; "flags"; "relayState"],
        getpath device ["zone"; "zoneState"] with
  | Some _, Some st, Some ct, Some _, Some _, Some _ => tenths_ok st && tenths_ok ct
  | _, _, _, _, _, _ => false
  end.

(** The snapshot of the worked example, under a display name and a zone id. *)
Definition example_snapshot (name id : pyval) : pyval :=
  VDict [("description", VDict [("name", name)]);
         ("zone", VDict [("id", id);
                         ("setTemperature", VInt 215);
                         ("currentTemperature", VInt 198);
                         ("humidity", VInt 45);
                         ("flags", VDict [("relayState", VStr "on")]);
                         ("zoneState", VStr "zoneOn")])].

(** The same readings in a snapshot that lacks the [flags] entry. *)
Definition snapshot_without_flags (name id : pyval) : pyval :=
  VDict [("description", VDict [("name", name)]);
         ("zone", VDict [("id", id);
                         ("setTemperature", VInt 215);
                         ("currentTemperature", VInt 198);
                         ("humidity", VInt 45);
                         ("zoneState", VStr "zoneOn")])].

(** A snapshot whose [flags] entry carries no [relayState]. *)
Definition snapshot_without_relay_state (name id : pyval) : pyval :=
  VDict [("description", VDict [("name", name)]);
         ("zone", VDict [("id", id);
                         ("setTemperature", VInt 215);
                         ("currentTemperature", VInt 198);
                         ("humidity", VInt 45);
                         ("flags", VDict []);
                         ("zoneState", VStr "zoneOn")])].

(** A snapshot that reports a null set-point and nothing else about the
    zone. *)
Definition snapshot_null_setpoint (name : pyval) : pyval :=
  VDict [("description", VDict [("name", name)]);
         ("zone", VDict [("setTemperature", VNone)])].

(** ** Observing a method call *)

Definition entity_after {A} (x : adapter_state * result A) : TechThermostat :=
  fst (fst x).

Definition io_after {S A} (x : (S * io) * result A) : io := snd (fst x).

Definition host_after {S A} (x : (S * io) * result A) : S := fst (fst x).

Definition outcome {S A} (x : S * result A) : result A := snd x.

(** The records the three methods and the setup routine hand to the logger. *)
Definition update_failed (name : pyval) (ex : exn) : log_record :=
  {| log_msg := "Failed to update Tech zone %s: %s";
     log_args := [ArgVal name; ArgExn ex] |}.

Definition set_temperature_failed (name temperature : pyval) (ex : exn) : log_record :=
  {| log_msg := "Failed to set temperature for %s to %s: %s";
     log_args := [ArgVal name; ArgVal temperature; ArgExn ex] |}.

Definition set_hvac_mode_failed (name : pyval) (hvac_mode : string) (ex : exn)
  : log_record :=
  {| log_msg := "Failed to set hvac mode for %s to %s: %s";
     log_args := [ArgVal name; ArgStr hvac_mode; ArgExn ex] |}.

Definition setup_failed (ex : exn) : log_record :=
  {| log_msg := "Failed to set up Tech climate: %s"; log_args := [ArgExn ex] |}.

(** ** Sample clients, entities and hosts *)

(** A client whose every request fails with a connection error. *)
Definition offline_api : Tech :=
  {| Tech_get_module_zones := fun _ _ => Raise (OtherException "ClientError");
     Tech_get_zone := fun _ _ _ => Raise (OtherException "ClientError");
     Tech_set_const_temp := fun _ _ _ _ => Raise (OtherException "ClientError");
     Tech_set_zone := fun _ _ _ _ => Raise (OtherException "ClientError") |}.

(** A client that always answers with the same zones and the same snapshot,
    and accepts every command. *)
Definition steady_api (zones : list (Z * pyval)) (device : pyval) : Tech :=
  {| Tech_get_module_zones := fun _ _ => Ok zones;
     Tech_get_zone := fun _ _ _ => Ok device;
     Tech_set_const_temp := fun _ _ _ _ => Ok tt;
     Tech_set_zone := fun _ _ _ _ => Ok tt |}.

(** An entity that has seen a snapshot before: 20.0 degrees wanted, 18.5
    measured, relay off, zone switched off. *)
Definition sample_thermostat (api : Tech) : TechThermostat :=
  {| _api := api; _id := VInt 101; _udid := VStr "a1b2";
     _attr_unique_id := (VStr "a1b2", VInt 101);
     _attr_device_info_name := VStr "Hall";
     _attr_name := VStr "Hall";
     _attr_target_temperature := VFloat 20%float;
     _attr_current_temperature := VFloat 18.5%float;
     _attr_current_humidity := VInt 40;
     _attr_hvac_action := Some HVACAction_IDLE;
     _attr_hvac_mode := HVACMode_OFF |}.

Definition idle_io : io := {| calls := []; logged := [] |}.

(** A host whose callback iterates the generator at once: it registers all
    the entities, or lets the generator's exception out and registers none. *)
Definition eager_add_entities (g : generator) : Py (list TechThermostat) unit :=
  fun registry =>
    match snd g with
    | None => (registry ++ fst g, Ok tt)
    | Some e => (registry, Raise e)
    end.

(** A host whose callback puts the iteration off to a task of its own: the
    caller sees no exception. *)
Definition deferred_add_entities (g : generator) : Py (list TechThermostat) unit :=
  fun registry =>
    match snd g with
    | None => (registry ++ fst g, Ok tt)
    | Some _ => (registry, Ok tt)
    end.

Definition sample_zones : list (Z * pyval) :=
  [(101, example_snapshot (VStr "Hall") (VInt 101));
   (102, example_snapshot (VStr "Bath") (VInt 102))].

(** Two zones, the second with an empty snapshot. *)
Definition broken_zones : list (Z * pyval) :=
  [(101, example_snapshot (VStr "Hall") (VInt 101)); (102, VDict [])].

Definition sample_hass (api : Tech) : HomeAssistant :=
  {| hass_data := [("tech", [("entry-1", api)])] |}.

Definition sample_entry : ConfigEntry :=
  {| entry_id := "entry-1";
     entry_data := VDict [("module", VDict [("udid", VStr "a1b2")])] |}.

(** ** The life of an entity

    The host builds an entity once and then calls its three methods in any
    order. *)

Inductive method_call : Type :=
| Refresh
| SetTemperature (kwargs : list (string * pyval))
| SetHvacMode (hvac_mode : string).

Definition call_method (c : method_call) : Py adapter_state unit :=
  match c with
  | Refresh => async_update
  | SetTemperature kwargs => async_set_temperature kwargs
  | SetHvacMode hvac_mode => async_set_hvac_mode hvac_mode
  end.

(** The state after a sequence of calls; a call that raises leaves the
    state it reached, and the host goes on with the next one. *)
Fixpoint call_methods (cs : list method_call) (st : adapter_state) : adapter_state :=
  match cs with
  | [] => st
  | c :: rest => call_methods rest (fst (call_method c st))
  end.

(** A cached temperature is unknown or a float. *)
Definition temperature_typed (v : pyval) : Prop :=
  v = VNone \/ exists f, v = VFloat f.

(** What the host may rely on when it reads the derived state. *)
Definition derived_state_ok (t : TechThermostat) : Prop :=
  In (_attr_hvac_mode t) SUPPORT_HVAC
  /\ In (_attr_hvac_action t)
        [Some HVACAction_HEATING; Some HVACAction_IDLE; Some HVACAction_OFF]
  /\ temperature_typed (_attr_target_temperature t)
  /\ temperature_typed (_attr_current_temperature t).

(** The attributes that say which zone an entity stands for. *)
Definition same_identity (t t' : TechThermostat) : Prop :=
  _id t' = _id t
  /\ _udid t' = _udid t
  /\ _attr_unique_id t' = _attr_unique_id t
  /\ _attr_device_info_name t' = _attr_device_info_name t.

(** A snapshot that reports the relay but no zone state. *)
Definition snapshot_without_zone_state (name id : pyval) : pyval :=
  VDict [("description", VDict [("name", name)]);
         ("zone", VDict [("id", id);
                         ("setTemperature", VInt 215);
                         ("currentTemperature", VInt 198);
                         ("humidity", VInt 45);
                         ("flags", VDict [("relayState", VStr "on")])])].

(** The two reads that open [async_setup_entry], before its [try]: the
    client stored for the entry and the module id of the entry. *)
Definition setup_config (DOMAIN : string) (hass : HomeAssistant) (entry : ConfigEntry)
  : result (Tech * pyval) :=
  and_then (lookup (hass_data hass) DOMAIN) (fun apis =>
  and_then (lookup apis (entry_id entry)) (fun api =>
  and_then (getitem (entry_data entry) "module") (fun module =>
  and_then (getitem module "udid") (fun udid => Ok (api, udid))))).

(** The entity of one zone: its snapshot looked up under the key, then the
    constructor. *)
Definition build_entity (zones : list (Z * pyval)) (api : Tech) (udid : pyval)
           (zone : Z) : result TechThermostat :=
  and_then (zones_getitem zones zone)
           (fun device => TechThermostat_init device api udid).

(** The entity the constructor builds from the worked example for the hall,
    zone 101 of module "a1b2". *)
Definition hall_thermostat (api : Tech) : TechThermostat :=
  {| _api := api; _id := VInt 101; _udid := VStr "a1b2";
     _attr_unique_id := (VStr "a1b2", VInt 101);
     _attr_device_info_name := VStr "Hall";
     _attr_name := VStr "Hall";
     _attr_target_temperature := VFloat 21.5%float;
     _attr_current_temperature := VFloat 19.8%float;
     _attr_current_humidity := VInt 45;
     _attr_hvac_action := Some HVACAction_HEATING;
     _attr_hvac_mode := HVACMode_HEAT |}.

(** A day of calls: a refresh, two commands, a refresh. *)
Definition sample_calls : list method_call :=
  [Refresh; SetTemperature [("temperature", VFloat 22%float)];
   SetHvacMode "off"; Refresh].

(** A configuration entry that names no module. *)
Definition entry_without_module : ConfigEntry :=
  {| entry_id := "entry-1"; entry_data := VDict [] |}.

(** The statements before the relay-state read all succeed: the name, the
    two temperatures (null or numeric) and the humidity are there. *)
Definition readings_ok (device : pyval) : bool :=
  match getpath device ["description"; "name"],
        getpath device ["zone"; "setTemperature"],
        getpath device ["zone"; "currentTemperature"],
        getpath device ["zone"; "humidity"] with
  | Some _, Some st, Some ct, Some _ => tenths_ok st && tenths_ok ct
  | _, _, _, _ => false
  end.

(** A host whose callback registers each entity as the generator yields it,
    and lets the generator's exception out. *)
Definition incremental_add_entities (g : generator) : Py (list TechThermostat) unit :=
  fun registry =>
    match snd g with
    | None => (registry ++ fst g, Ok tt)
    | Some e => (registry ++ fst g, Raise e)
    end.

(** * Properties *)

(** ** Values *)

Lemma eq_str_true (v : pyval) (s : string) : eq_str v s = true <-> v = VStr s.
Proof.
  destruct v; simpl; split; try discriminate.
  - intros H. apply String.eqb_eq in H. now subst.
  - intros H. injection H as ->. apply String.eqb_refl.
Qed.

Lemma eq_str_false (v : pyval) (s : string) : eq_str v s = false <-> v <> VStr s.
Proof.
  rewrite <- eq_str_true. destruct (eq_str v s); split; congruence.
Qed.

Lemma is_not_None_false (v : pyval) : is_not_None v = false <-> v = VNone.
Proof. destruct v; simpl; split; congruence. Qed.

(** [/ 10] on the values a snapshot can carry. *)
Example truediv_10_int : truediv_10 (VInt 215) = Ok (VFloat 21.5%float).
Proof. reflexivity. Qed.

Example truediv_10_float : truediv_10 (VFloat 215%float) = Ok (VFloat 21.5%float).
Proof. reflexivity. Qed.

Example truediv_10_bool : truediv_10 (VBool true) = Ok (VFloat 0.1%float).
Proof. reflexivity. Qed.

Example truediv_10_large :
  truediv_10 (VInt 90071992547409935) = Ok (VFloat 9007199254740994%float).
Proof. reflexivity. Qed.

Example truediv_10_overflow :
  truediv_10 (VInt (10 * 2 ^ 1024))
  = Raise (OverflowError "integer division result too large for a float").
Proof. vm_compute. reflexivity. Qed.

Example truediv_10_str :
  truediv_10 (VStr "215") = Raise (TypeError "unsupported operand type(s) for /").
Proof. reflexivity. Qed.

(** ** The state derivation *)

Ltac run_py :=
  cbv beta delta [bind pure modify ret get try_except lift_fst lift_snd await_api
                  LOGGER_error fst snd] iota.

Ltac case_getitem :=
  match goal with
  | |- context [match getitem ?v ?k with _ => _ end] =>
      let E := fresh "E" in destruct (getitem v k) eqn:E
  | |- context [match truediv_10 ?v with _ => _ end] =>
      let E := fresh "E" in destruct (truediv_10 v) eqn:E
  | |- context [if is_not_None ?v then _ else _] =>
      let E := fresh "E" in destruct (is_not_None v) eqn:E
  | |- context [if eq_str ?v ?s then _ else _] =>
      let E := fresh "E" in destruct (eq_str v s) eqn:E
  end.

(** Case analysis along the statements of [update_properties]. *)
Ltac derive_cases :=
  unfold update_properties; cbn [getpath]; run_py;
  repeat (case_getitem; run_py).

Ltac null_or_absent H :=
  destruct H as [H | H]; try discriminate H;
  injection H as H; subst; discriminate.

Lemma update_properties_target_frame (device : pyval) (self : TechThermostat) :
  absent_or_null (getpath device ["zone"; "setTemperature"]) ->
  _attr_target_temperature (fst (update_properties device self))
  = _attr_target_temperature self.
Proof.
  unfold absent_or_null. derive_cases; intros H; try reflexivity; null_or_absent H.
Qed.

Lemma update_properties_current_frame (device : pyval) (self : TechThermostat) :
  absent_or_null (getpath device ["zone"; "currentTemperature"]) ->
  _attr_current_temperature (fst (update_properties device self))
  = _attr_current_temperature self.
Proof.
  unfold absent_or_null. derive_cases; intros H; try reflexivity; null_or_absent H.
Qed.

Lemma update_properties_humidity_frame (device : pyval) (self : TechThermostat) :
  absent_or_null (getpath device ["zone"; "humidity"]) ->
  _attr_current_humidity (fst (update_properties device self))
  = _attr_current_humidity self.
Proof.
  unfold absent_or_null. derive_cases; intros H; try reflexivity; null_or_absent H.
Qed.

(** C2. Whatever the snapshot, a set-point temperature that is absent or
    null leaves the target temperature as it was before the derivation; the
    same holds for the current temperature and for the humidity when their
    source values are absent or null.  The state compared is the one the
    derivation leaves, whether it returns or raises. *)
Theorem update_properties_keeps_unreported (device : pyval) (self : TechThermostat) :
  (absent_or_null (getpath device ["zone"; "setTemperature"]) ->
   _attr_target_temperature (fst (update_properties device self))
   = _attr_target_temperature self)
  /\ (absent_or_null (getpath device ["zone"; "currentTemperature"]) ->
      _attr_current_temperature (fst (update_properties device self))
      = _attr_current_temperature self)
  /\ (absent_or_null (getpath device ["zone"; "humidity"]) ->
      _attr_current_humidity (fst (update_properties device self))
      = _attr_current_humidity self).
Proof.
  split; [| split].
  - apply update_properties_target_frame.
  - apply update_properties_current_frame.
  - apply update_properties_humidity_frame.
Qed.

Lemma in_strs_pair (v : pyval) (a b : string) :
  in_strs v [a; b] = true <-> v = VStr a \/ v = VStr b.
Proof.
  unfold in_strs. cbn [existsb]. rewrite !orb_true_iff, !eq_str_true.
  intuition discriminate.
Qed.

Ltac fields :=
  cbn [fst snd _attr_name _attr_target_temperature _attr_current_temperature
       _attr_current_humidity _attr_hvac_action _attr_hvac_mode
       set_attr_name set_attr_target_temperature set_attr_current_temperature
       set_attr_current_humidity set_attr_hvac_action set_attr_hvac_mode].

Ltac eq_str_facts :=
  repeat match goal with
         | H : eq_str _ _ = true |- _ => apply eq_str_true in H
         | H : eq_str _ _ = false |- _ => apply eq_str_false in H
         end.

(** On a well-formed snapshot the derivation runs to its last statement. *)
Lemma update_properties_returns (device : pyval) (self : TechThermostat) :
  well_formed device = true -> snd (update_properties device self) = Ok tt.
Proof.
  unfold well_formed, tenths_ok.
  derive_cases; fields; intros Hwf; try reflexivity; discriminate Hwf.
Qed.

(** It returns on no other snapshot. *)
Lemma update_properties_returns_only (device : pyval) (self : TechThermostat) :
  snd (update_properties device self) = Ok tt -> well_formed device = true.
Proof.
  unfold well_formed, tenths_ok.
  derive_cases; fields; intros Hret; try reflexivity; discriminate Hret.
Qed.

(** C3 (amended). When the statements before the relay-state read succeed,
    the HVAC action is heating when the relay state is the string "on", idle
    when it is "off", and off for any other value, null included, whether or
    not the snapshot has a zone state.  When the relay state is absent, or a
    statement before its read fails, the derivation raises and the HVAC
    action keeps the value it had. *)
Theorem update_properties_hvac_action (device : pyval) (self : TechThermostat) :
  (forall state,
      readings_ok device = true ->
      getpath device ["zone"; "flags"; "relayState"] = Some state ->
      (state = VStr "on" ->
       _attr_hvac_action (fst (update_properties device self))
       = Some HVACAction_HEATING)
      /\ (state = VStr "off" ->
          _attr_hvac_action (fst (update_properties device self))
          = Some HVACAction_IDLE)
      /\ (state <> VStr "on" -> state <> VStr "off" ->
          _attr_hvac_action (fst (update_properties device self))
          = Some HVACAction_OFF))
  /\ (getpath device ["zone"; "flags"; "relayState"] = None ->
      _attr_hvac_action (fst (update_properties device self))
      = _attr_hvac_action self
      /\ exists e, snd (update_properties device self) = Raise e)
  /\ (readings_ok device = false ->
      _attr_hvac_action (fst (update_properties device self))
      = _attr_hvac_action self
      /\ exists e, snd (update_properties device self) = Raise e).
Proof.
  split; [| split].
  - intros state. unfold readings_ok, tenths_ok.
    derive_cases; fields; intros Hok Hst; try discriminate;
      injection Hst as <-; eq_str_facts;
      repeat split; intros; subst; congruence.
  - derive_cases; fields; intros Hst; try discriminate; split; eauto.
  - unfold readings_ok, tenths_ok.
    derive_cases; fields; intros Hok; try discriminate; split; eauto.
Qed.

(** C3 (as stated) fails: a snapshot without [relayState] under [flags]
    leaves an entity that was heating in the heating state, not off. *)
Lemma hvac_action_absent_relay_not_off :
  getpath (snapshot_without_relay_state (VStr "Hall") (VInt 101))
          ["zone"; "flags"; "relayState"] = None
  /\ _attr_hvac_action
       (fst (update_properties
               (snapshot_without_relay_state (VStr "Hall") (VInt 101))
               (set_attr_hvac_action HVACAction_HEATING (sample_thermostat offline_api))))
     = Some HVACAction_HEATING
  /\ _attr_hvac_action
       (fst (update_properties
               (snapshot_without_relay_state (VStr "Hall") (VInt 101))
               (set_attr_hvac_action HVACAction_HEATING (sample_thermostat offline_api))))
     <> Some HVACAction_OFF
  /\ snd (update_properties
            (snapshot_without_relay_state (VStr "Hall") (VInt 101))
            (set_attr_hvac_action HVACAction_HEATING (sample_thermostat offline_api)))
     = Raise (KeyError "relayState").
Proof.
  repeat split; try reflexivity. vm_compute. discriminate.
Qed.

(** C4 (amended). On a well-formed snapshot the derivation returns and the
    HVAC mode is heat exactly when the zone state is "zoneOn" or "noAlarm";
    it is off for any other value. *)
Theorem update_properties_hvac_mode (device : pyval) (self : TechThermostat)
        (mode : pyval) :
  well_formed device = true ->
  getpath device ["zone"; "zoneState"] = Some mode ->
  snd (update_properties device self) = Ok tt
  /\ (_attr_hvac_mode (fst (update_properties device self)) = HVACMode_HEAT
      <-> mode = VStr "zoneOn" \/ mode = VStr "noAlarm")
  /\ (_attr_hvac_mode (fst (update_properties device self)) = HVACMode_OFF
      <-> ~ (mode = VStr "zoneOn" \/ mode = VStr "noAlarm")).
Proof.
  intros Hwf Hst. split; [now apply update_properties_returns |].
  revert Hwf Hst. unfold well_formed, tenths_ok.
  derive_cases; fields; intros Hwf Hst; try discriminate;
    injection Hst as <-;
    match goal with
    | |- context [in_strs ?v ?l] =>
        pose proof (in_strs_pair v "zoneOn" "noAlarm") as Hin;
        destruct (in_strs v l)
    end;
    intuition congruence.
Qed.

(** C4 (as stated) fails: the snapshot without [flags] has the zone state
    "zoneOn", the derivation raises before it reads it, and an entity whose
    mode was off is left off. *)
Lemma hvac_mode_zone_on_not_heat :
  getpath (snapshot_without_flags (VStr "Hall") (VInt 101)) ["zone"; "zoneState"]
  = Some (VStr "zoneOn")
  /\ _attr_hvac_mode
       (fst (update_properties (snapshot_without_flags (VStr "Hall") (VInt 101))
                               (sample_thermostat offline_api)))
     = HVACMode_OFF
  /\ _attr_hvac_mode
       (fst (update_properties (snapshot_without_flags (VStr "Hall") (VInt 101))
                               (sample_thermostat offline_api)))
     <> HVACMode_HEAT
  /\ snd (update_properties (snapshot_without_flags (VStr "Hall") (VInt 101))
                            (sample_thermostat offline_api))
     = Raise (KeyError "flags").
Proof.
  repeat split; try reflexivity. vm_compute. discriminate.
Qed.

(** C5. The worked example: 215 and 198 tenths, 45 percent, relay on, zone
    on give 21.5 and 19.8 degrees, humidity 45, heating, heat. *)
Theorem update_properties_example (name id : pyval) (self : TechThermostat) :
  snd (update_properties (example_snapshot name id) self) = Ok tt
  /\ _attr_target_temperature (fst (update_properties (example_snapshot name id) self))
     = VFloat 21.5%float
  /\ _attr_current_temperature (fst (update_properties (example_snapshot name id) self))
     = VFloat 19.8%float
  /\ _attr_current_humidity (fst (update_properties (example_snapshot name id) self))
     = VInt 45
  /\ _attr_hvac_action (fst (update_properties (example_snapshot name id) self))
     = Some HVACAction_HEATING
  /\ _attr_hvac_mode (fst (update_properties (example_snapshot name id) self))
     = HVACMode_HEAT.
Proof.
  repeat split; reflexivity.
Qed.

(** ** Refresh and commands *)

(** C1. When [get_zone] raises an error, [async_update] returns normally,
    the entity is exactly as it was (name, target and current temperature,
    humidity, HVAC action and HVAC mode included), and the failure is
    logged. *)
Theorem async_update_fetch_error (self : TechThermostat) (w : io) (e : exn) :
  Tech_get_zone (_api self) (calls w) (_udid self) (_id self) = Raise e ->
  is_Exception e = true ->
  outcome (async_update (self, w)) = Ok tt
  /\ entity_after (async_update (self, w)) = self
  /\ io_after (async_update (self, w))
     = {| calls := calls w ++ [Call_get_zone (_udid self) (_id self)];
          logged := logged w ++ [update_failed (_attr_name self) e] |}.
Proof.
  intros Hfetch Herr.
  unfold outcome, entity_after, io_after, async_update, get_zone. run_py.
  rewrite Hfetch. run_py. rewrite Herr. repeat split.
Qed.

(** C8. Without a temperature among the keyword arguments, or with a null
    one, [async_set_temperature] returns at once: no call, no log record, no
    change to the entity. *)
Theorem async_set_temperature_no_value
        (kwargs : list (string * pyval)) (self : TechThermostat) (w : io) :
  absent_or_null (dict_get String.eqb kwargs ATTR_TEMPERATURE) ->
  async_set_temperature kwargs (self, w) = ((self, w), Ok tt).
Proof.
  intros H. unfold async_set_temperature, kwargs_get.
  destruct H as [-> | ->]; reflexivity.
Qed.

(** C9. With a temperature [v], the client receives one [set_const_temp]
    call carrying [v] itself, the entity is left as it was whether the call
    succeeds or raises, and an error of the call is logged and not raised. *)
Theorem async_set_temperature_forwards
        (kwargs : list (string * pyval)) (v : pyval)
        (self : TechThermostat) (w : io) :
  dict_get String.eqb kwargs ATTR_TEMPERATURE = Some v ->
  v <> VNone ->
  calls (io_after (async_set_temperature kwargs (self, w)))
  = calls w ++ [Call_set_const_temp (_udid self) (_id self) v]
  /\ entity_after (async_set_temperature kwargs (self, w)) = self
  /\ match Tech_set_const_temp (_api self) (calls w) (_udid self) (_id self) v with
     | Ok _ =>
         outcome (async_set_temperature kwargs (self, w)) = Ok tt
         /\ logged (io_after (async_set_temperature kwargs (self, w))) = logged w
     | Raise e =>
         if is_Exception e then
           outcome (async_set_temperature kwargs (self, w)) = Ok tt
           /\ logged (io_after (async_set_temperature kwargs (self, w)))
              = logged w ++ [set_temperature_failed (_attr_name self) v e]
         else outcome (async_set_temperature kwargs (self, w)) = Raise e
     end.
Proof.
  intros Hget Hv.
  unfold outcome, entity_after, io_after, async_set_temperature, kwargs_get,
    set_const_temp.
  rewrite Hget.
  assert (Hnn : is_not_None v = true) by (destruct v; simpl; congruence).
  rewrite Hnn. run_py.
  destruct (Tech_set_const_temp _ _ _ _ v) as [[] | e]; run_py;
    [| destruct (is_Exception e)]; cbn [calls logged]; repeat split.
Qed.

(** C7. [async_set_hvac_mode] sends the client one [set_zone] call whose
    flag is true exactly when the requested mode is "heat", whatever the
    entity holds; the entity is left as it was, and an error of the call is
    logged and not raised. *)
Theorem async_set_hvac_mode_flag
        (hvac_mode : string) (self : TechThermostat) (w : io) :
  exists on : bool,
    (on = true <-> hvac_mode = "heat")
    /\ calls (io_after (async_set_hvac_mode hvac_mode (self, w)))
       = calls w ++ [Call_set_zone (_udid self) (_id self) on]
    /\ entity_after (async_set_hvac_mode hvac_mode (self, w)) = self
    /\ match Tech_set_zone (_api self) (calls w) (_udid self) (_id self) on with
       | Ok _ =>
           outcome (async_set_hvac_mode hvac_mode (self, w)) = Ok tt
           /\ logged (io_after (async_set_hvac_mode hvac_mode (self, w))) = logged w
       | Raise e =>
           if is_Exception e then
             outcome (async_set_hvac_mode hvac_mode (self, w)) = Ok tt
             /\ logged (io_after (async_set_hvac_mode hvac_mode (self, w)))
                = logged w ++ [set_hvac_mode_failed (_attr_name self) hvac_mode e]
           else outcome (async_set_hvac_mode hvac_mode (self, w)) = Raise e
       end.
Proof.
  exists (String.eqb hvac_mode "heat"). split; [apply String.eqb_eq |].
  unfold outcome, entity_after, io_after, async_set_hvac_mode, set_zone.
  cbn [HVACMode_value]. run_py.
  destruct (Tech_set_zone _ _ _ _ _) as [[] | e]; run_py;
    [| destruct (is_Exception e)]; cbn [calls logged]; repeat split.
Qed.

(** C10. A snapshot that lacks [flags] makes the derivation raise half-way;
    a refresh that fetches it returns normally and logs, and leaves the
    entity with the snapshot's name, temperatures and humidity next to the
    HVAC action and HVAC mode it had before. *)
Theorem async_update_partial_update
        (name id : pyval) (self : TechThermostat) (w : io) :
  Tech_get_zone (_api self) (calls w) (_udid self) (_id self)
  = Ok (snapshot_without_flags name id) ->
  snd (update_properties (snapshot_without_flags name id) self)
  = Raise (KeyError "flags")
  /\ outcome (async_update (self, w)) = Ok tt
  /\ _attr_name (entity_after (async_update (self, w))) = name
  /\ _attr_target_temperature (entity_after (async_update (self, w)))
     = VFloat 21.5%float
  /\ _attr_current_temperature (entity_after (async_update (self, w)))
     = VFloat 19.8%float
  /\ _attr_current_humidity (entity_after (async_update (self, w))) = VInt 45
  /\ _attr_hvac_action (entity_after (async_update (self, w)))
     = _attr_hvac_action self
  /\ _attr_hvac_mode (entity_after (async_update (self, w)))
     = _attr_hvac_mode self
  /\ logged (io_after (async_update (self, w)))
     = logged w ++ [update_failed name (KeyError "flags")].
Proof.
  intros Hfetch. split; [reflexivity |].
  unfold outcome, entity_after, io_after, async_update, get_zone. run_py.
  rewrite Hfetch. repeat split.
Qed.

(** ** The setup routine *)

Lemma getitem_raises_Exception (v : pyval) (key : string) (e : exn) :
  getitem v key = Raise e -> is_Exception e = true.
Proof.
  destruct v; simpl; try (intros [= <-]; reflexivity).
  destruct (dict_get String.eqb d key); intros [= <-]; reflexivity.
Qed.

Lemma truediv_10_raises_Exception (v : pyval) (e : exn) :
  truediv_10 v = Raise e -> is_Exception e = true.
Proof.
  destruct v; simpl; unfold int_truediv;
    try (intros [= <-]; reflexivity);
    match goal with
    | |- context [SFdiv ?p ?m ?a ?b] => destruct (SFdiv p m a b)
    end; intros [= <-]; reflexivity.
Qed.

Lemma update_properties_raises_Exception
      (device : pyval) (self : TechThermostat) (e : exn) :
  snd (update_properties device self) = Raise e -> is_Exception e = true.
Proof.
  derive_cases; fields; intros [= <-];
    eauto using getitem_raises_Exception, truediv_10_raises_Exception.
Qed.

Lemma TechThermostat_init_raises_Exception
      (device : pyval) (api : Tech) (udid : pyval) (e : exn) :
  TechThermostat_init device api udid = Raise e -> is_Exception e = true.
Proof.
  unfold TechThermostat_init, and_then.
  repeat match goal with
         | |- context [match getitem ?v ?k with _ => _ end] =>
             let E := fresh "E" in destruct (getitem v k) eqn:E
         end;
    try (intros [= <-]; eauto using getitem_raises_Exception).
  match goal with
  | |- context [update_properties ?d ?s] =>
      pose proof (update_properties_raises_Exception d s) as Hup;
      destruct (update_properties d s) as [self' [[] | e']]
  end; [discriminate | intros [= <-]; now apply Hup].
Qed.

Lemma genexpr_raises_Exception
      (zones : list (Z * pyval)) (api : Tech) (udid : pyval) (keys : list Z) :
  forall entities e,
    genexpr zones api udid keys = (entities, Some e) -> is_Exception e = true.
Proof.
  induction keys as [| zone rest IH]; intros entities e; cbn [genexpr].
  - discriminate.
  - unfold zones_getitem, and_then.
    destruct (dict_get Z.eqb zones zone) as [device |].
    + destruct (TechThermostat_init device api udid) as [entity | e'] eqn:Einit.
      * destruct (genexpr zones api udid rest) as [entities' ex].
        intros [= _ ->]. eauto.
      * intros [= _ <-]. eauto using TechThermostat_init_raises_Exception.
    + intros [= _ <-]. reflexivity.
Qed.

(** An exhausted generator has yielded one entity for each key, built from
    the snapshot stored under that key. *)
Lemma genexpr_one_per_zone
      (zones : list (Z * pyval)) (api : Tech) (udid : pyval) (keys : list Z) :
  forall entities,
    genexpr zones api udid keys = (entities, None) ->
    Forall2 (fun zone entity =>
               exists device, zones_getitem zones zone = Ok device
                              /\ TechThermostat_init device api udid = Ok entity)
            keys entities.
Proof.
  induction keys as [| zone rest IH]; intros entities; cbn [genexpr].
  - intros [= <-]. constructor.
  - unfold and_then.
    destruct (zones_getitem zones zone) as [device | e] eqn:Eget; [| discriminate].
    destruct (TechThermostat_init device api udid) as [entity | e] eqn:Einit;
      [| discriminate].
    destruct (genexpr zones api udid rest) as [entities' ex].
    intros [= <- ->]. constructor; eauto.
Qed.

(** * The theorems at concrete inputs *)

(** An offline client: the refresh of the sample entity returns, logs the
    connection error and leaves the entity alone. *)
Lemma async_update_fetch_error_witness :
  outcome (async_update (sample_thermostat offline_api, idle_io)) = Ok tt
  /\ entity_after (async_update (sample_thermostat offline_api, idle_io))
     = sample_thermostat offline_api
  /\ io_after (async_update (sample_thermostat offline_api, idle_io))
     = {| calls := [Call_get_zone (VStr "a1b2") (VInt 101)];
          logged := [update_failed (VStr "Hall") (OtherException "ClientError")] |}.
Proof.
  exact (async_update_fetch_error (sample_thermostat offline_api) idle_io
           (OtherException "ClientError") eq_refl eq_refl).
Defined.

(** A null set-point and no other reading: 20.0, 18.5 and 40 stay. *)
Lemma update_properties_keeps_unreported_witness :
  _attr_target_temperature
    (fst (update_properties (snapshot_null_setpoint (VStr "Bath"))
                            (sample_thermostat offline_api)))
  = VFloat 20%float
  /\ _attr_current_temperature
       (fst (update_properties (snapshot_null_setpoint (VStr "Bath"))
                               (sample_thermostat offline_api)))
     = VFloat 18.5%float
  /\ _attr_current_humidity
       (fst (update_properties (snapshot_null_setpoint (VStr "Bath"))
                               (sample_thermostat offline_api)))
     = VInt 40.
Proof.
  destruct (update_properties_keeps_unreported
              (snapshot_null_setpoint (VStr "Bath")) (sample_thermostat offline_api))
    as (Htarget & Hcurrent & Hhumidity).
  split; [| split].
  - apply Htarget. right. reflexivity.
  - apply Hcurrent. left. reflexivity.
  - apply Hhumidity. left. reflexivity.
Defined.

(** Relay on and no zone state: heating; no relay state: the idle action
    of the sample entity stays. *)
Lemma update_properties_hvac_action_witness :
  _attr_hvac_action
    (fst (update_properties (snapshot_without_zone_state (VStr "Hall") (VInt 101))
                            (sample_thermostat offline_api)))
  = Some HVACAction_HEATING
  /\ _attr_hvac_action
       (fst (update_properties (snapshot_without_relay_state (VStr "Hall") (VInt 101))
                               (sample_thermostat offline_api)))
     = Some HVACAction_IDLE
  /\ _attr_hvac_action
       (fst (update_properties (snapshot_null_setpoint (VStr "Hall"))
                               (sample_thermostat offline_api)))
     = Some HVACAction_IDLE.
Proof.
  split; [| split].
  - destruct (proj1 (update_properties_hvac_action
                       (snapshot_without_zone_state (VStr "Hall") (VInt 101))
                       (sample_thermostat offline_api))
                    (VStr "on") eq_refl eq_refl)
      as (Hon & _).
    exact (Hon eq_refl).
  - exact (proj1 (proj1 (proj2 (update_properties_hvac_action
                                  (snapshot_without_relay_state (VStr "Hall") (VInt 101))
                                  (sample_thermostat offline_api)))
                        eq_refl)).
  - exact (proj1 (proj2 (proj2 (update_properties_hvac_action
                                  (snapshot_null_setpoint (VStr "Hall"))
                                  (sample_thermostat offline_api)))
                        eq_refl)).
Defined.

(** Zone state "zoneOn" in the worked example: heat. *)
Lemma update_properties_hvac_mode_witness :
  _attr_hvac_mode
    (fst (update_properties (example_snapshot (VStr "Hall") (VInt 101))
                            (sample_thermostat offline_api)))
  = HVACMode_HEAT.
Proof.
  destruct (update_properties_hvac_mode
              (example_snapshot (VStr "Hall") (VInt 101))
              (sample_thermostat offline_api) (VStr "zoneOn") eq_refl eq_refl)
    as (_ & Hheat & _).
  apply Hheat. left. reflexivity.
Defined.

(** No keyword argument at all. *)
Lemma async_set_temperature_no_value_witness :
  async_set_temperature [] (sample_thermostat offline_api, idle_io)
  = ((sample_thermostat offline_api, idle_io), Ok tt).
Proof.
  apply async_set_temperature_no_value. left. reflexivity.
Defined.

(** 21.5 degrees asked of an offline client: 21.5 is what the client is
    sent, the target stays at 20.0 and the error is logged. *)
Lemma async_set_temperature_forwards_witness :
  calls (io_after (async_set_temperature [("temperature", VFloat 21.5%float)]
                                         (sample_thermostat offline_api, idle_io)))
  = [Call_set_const_temp (VStr "a1b2") (VInt 101) (VFloat 21.5%float)]
  /\ _attr_target_temperature
       (entity_after (async_set_temperature [("temperature", VFloat 21.5%float)]
                                            (sample_thermostat offline_api, idle_io)))
     = VFloat 20%float
  /\ outcome (async_set_temperature [("temperature", VFloat 21.5%float)]
                                    (sample_thermostat offline_api, idle_io))
     = Ok tt.
Proof.
  assert (Hv : VFloat 21.5%float <> VNone) by discriminate.
  destruct (async_set_temperature_forwards
              [("temperature", VFloat 21.5%float)] (VFloat 21.5%float)
              (sample_thermostat offline_api) idle_io eq_refl Hv)
    as (Hcalls & Hself & Hret).
  split; [exact Hcalls | split].
  - rewrite Hself. reflexivity.
  - exact (proj1 Hret).
Defined.

(** The sample entity, idle and off, refreshed with a snapshot of the hall
    renamed "Kitchen" that lacks [flags]: new name and readings, old action
    and mode. *)
Lemma async_update_partial_update_witness :
  outcome (async_update
             (sample_thermostat
                (steady_api [] (snapshot_without_flags (VStr "Kitchen") (VInt 101))),
              idle_io)) = Ok tt
  /\ _attr_name
       (entity_after
          (async_update
             (sample_thermostat
                (steady_api [] (snapshot_without_flags (VStr "Kitchen") (VInt 101))),
              idle_io))) = VStr "Kitchen"
  /\ _attr_target_temperature
       (entity_after
          (async_update
             (sample_thermostat
                (steady_api [] (snapshot_without_flags (VStr "Kitchen") (VInt 101))),
              idle_io))) = VFloat 21.5%float
  /\ _attr_hvac_action
       (entity_after
          (async_update
             (sample_thermostat
                (steady_api [] (snapshot_without_flags (VStr "Kitchen") (VInt 101))),
              idle_io))) = Some HVACAction_IDLE
  /\ _attr_hvac_mode
       (entity_after
          (async_update
             (sample_thermostat
                (steady_api [] (snapshot_without_flags (VStr "Kitchen") (VInt 101))),
              idle_io))) = HVACMode_OFF.
Proof.
  destruct (async_update_partial_update
              (VStr "Kitchen") (VInt 101)
              (sample_thermostat
                 (steady_api [] (snapshot_without_flags (VStr "Kitchen") (VInt 101))))
              idle_io eq_refl)
    as (_ & Hret & Hname & Htarget & _ & _ & Haction & Hmode & _).
  repeat split; assumption.
Defined.

(** ** A zone whose entity cannot be built

    The entities are built while the callback iterates the generator.  A
    host that iterates inside the call hands the [KeyError] of the empty
    snapshot back to the setup routine, which logs it and returns False; a
    host that iterates later returns to the setup routine first, which
    returns True.  Neither registers the entity of the first zone alone. *)

Example async_setup_entry_broken_zone_eager :
  async_setup_entry "tech" (sample_hass (steady_api broken_zones VNone))
                    sample_entry eager_add_entities ([], idle_io)
  = (([], {| calls := [Call_get_module_zones (VStr "a1b2")];
             logged := [setup_failed (KeyError "zone")] |}),
     Ok false).
Proof. vm_compute. reflexivity. Qed.

Example async_setup_entry_broken_zone_deferred :
  async_setup_entry "tech" (sample_hass (steady_api broken_zones VNone))
                    sample_entry deferred_add_entities ([], idle_io)
  = (([], {| calls := [Call_get_module_zones (VStr "a1b2")]; logged := [] |}),
     Ok true).
Proof. vm_compute. reflexivity. Qed.

(** * Further properties of the derivation *)

(** X1. The derivation returns exactly on the well-formed snapshots: every
    key it reads is present and the two temperatures are null or can be
    divided by ten.  On any other snapshot it raises. *)
Theorem update_properties_returns_iff (device : pyval) (self : TechThermostat) :
  snd (update_properties device self) = Ok tt <-> well_formed device = true.
Proof.
  split.
  - apply update_properties_returns_only.
  - apply update_properties_returns.
Qed.

(** X2. Deriving twice from the same snapshot is deriving once: same state,
    same outcome. *)
Theorem update_properties_idempotent (device : pyval) (self : TechThermostat) :
  update_properties device (fst (update_properties device self))
  = update_properties device self.
Proof.
  derive_cases; reflexivity.
Qed.

(** X3. The derivation never touches the client handle nor the attributes
    that identify the zone, whatever the snapshot and whether it returns or
    raises. *)
Theorem update_properties_keeps_identity (device : pyval) (self : TechThermostat) :
  _api (fst (update_properties device self)) = _api self
  /\ same_identity self (fst (update_properties device self)).
Proof.
  unfold same_identity. derive_cases; repeat split.
Qed.

(** X4. On a well-formed snapshot the name is the snapshot's name, a
    non-null set-point or current temperature is cached divided by ten, and
    a non-null humidity is cached as it is. *)
Theorem update_properties_reads_snapshot
        (device : pyval) (self : TechThermostat) (name st ct hum : pyval) :
  well_formed device = true ->
  getpath device ["description"; "name"] = Some name ->
  getpath device ["zone"; "setTemperature"] = Some st ->
  getpath device ["zone"; "currentTemperature"] = Some ct ->
  getpath device ["zone"; "humidity"] = Some hum ->
  _attr_name (fst (update_properties device self)) = name
  /\ (st <> VNone ->
      truediv_10 st = Ok (_attr_target_temperature (fst (update_properties device self))))
  /\ (ct <> VNone ->
      truediv_10 ct = Ok (_attr_current_temperature (fst (update_properties device self))))
  /\ (hum <> VNone ->
      _attr_current_humidity (fst (update_properties device self)) = hum).
Proof.
  unfold well_formed, tenths_ok.
  derive_cases; fields; intros Hwf Hname Hst Hct Hhum; try discriminate;
    injection Hname as <-; injection Hst as <-; injection Hct as <-;
    injection Hhum as <-;
    repeat match goal with
           | H : is_not_None _ = false |- _ => apply is_not_None_false in H
           end;
    repeat split; intros; subst; congruence.
Qed.

(** X5. The HVAC mode is assigned by the last statement: when the
    derivation raises, the mode is the one the entity had. *)
Theorem update_properties_raise_keeps_mode
        (device : pyval) (self : TechThermostat) (e : exn) :
  snd (update_properties device self) = Raise e ->
  _attr_hvac_mode (fst (update_properties device self)) = _attr_hvac_mode self.
Proof.
  derive_cases; fields; intros Hraise; try reflexivity; discriminate Hraise.
Qed.

(** X6. When a well-formed snapshot reports all three readings, the derived
    state owes nothing to what was cached before: two entities fed the same
    snapshot agree on the name and on the five derived fields. *)
Theorem update_properties_forgets_prior
        (device : pyval) (self other : TechThermostat) (st ct hum : pyval) :
  well_formed device = true ->
  getpath device ["zone"; "setTemperature"] = Some st -> st <> VNone ->
  getpath device ["zone"; "currentTemperature"] = Some ct -> ct <> VNone ->
  getpath device ["zone"; "humidity"] = Some hum -> hum <> VNone ->
  _attr_name (fst (update_properties device self))
  = _attr_name (fst (update_properties device other))
  /\ _attr_target_temperature (fst (update_properties device self))
     = _attr_target_temperature (fst (update_properties device other))
  /\ _attr_current_temperature (fst (update_properties device self))
     = _attr_current_temperature (fst (update_properties device other))
  /\ _attr_current_humidity (fst (update_properties device self))
     = _attr_current_humidity (fst (update_properties device other))
  /\ _attr_hvac_action (fst (update_properties device self))
     = _attr_hvac_action (fst (update_properties device other))
  /\ _attr_hvac_mode (fst (update_properties device self))
     = _attr_hvac_mode (fst (update_properties device other)).
Proof.
  unfold well_formed, tenths_ok.
  derive_cases; fields; intros Hwf Hst Hst' Hct Hct' Hhum Hhum';
    try discriminate;
    injection Hst as <-; injection Hct as <-; injection Hhum as <-;
    repeat match goal with
           | H : is_not_None _ = false |- _ => apply is_not_None_false in H
           end;
    try contradiction; repeat split.
Qed.

(** * The constructor *)

Lemma well_formed_has_name (device : pyval) :
  well_formed device = true ->
  exists name, getpath device ["description"; "name"] = Some name.
Proof.
  unfold well_formed.
  destruct (getpath device ["description"; "name"]) as [name |];
    [eauto | discriminate].
Qed.

Lemma truediv_10_gives_float (v q : pyval) :
  truediv_10 v = Ok q -> exists f, q = VFloat f.
Proof.
  destruct v; simpl; unfold int_truediv; try discriminate;
    try (intros [= <-]; eauto);
    match goal with
    | |- context [SFdiv ?p ?m ?a ?b] => destruct (SFdiv p m a b)
    end; intros [= <-]; eauto.
Qed.

(** X7. An entity can be built from a snapshot exactly when the snapshot is
    well-formed and carries a zone id; from any other snapshot the
    constructor raises and there is no entity. *)
Theorem TechThermostat_init_succeeds_iff
        (device : pyval) (api : Tech) (udid : pyval) :
  (exists t, TechThermostat_init device api udid = Ok t)
  <-> well_formed device = true /\ getpath device ["zone"; "id"] <> None.
Proof.
  split.
  - intros [t Ht]. unfold TechThermostat_init, and_then in Ht.
    cbn [getpath].
    destruct (getitem device "zone") as [zone |] eqn:Ezone; [| discriminate].
    destruct (getitem zone "id") as [id |] eqn:Eid; [| discriminate].
    destruct (getitem device "description") as [description |]; [| discriminate].
    destruct (getitem description "name") as [name |]; [| discriminate].
    match type of Ht with
    | context [update_properties device ?s] =>
        pose proof (update_properties_returns_only device s) as Hwf;
        destruct (update_properties device s) as [self' [[] | e]]
    end; [| discriminate].
    split; [now apply Hwf | discriminate].
  - intros [Hwf Hid]. unfold TechThermostat_init, and_then.
    destruct (well_formed_has_name device Hwf) as [name Hname].
    cbn [getpath] in Hid, Hname.
    destruct (getitem device "zone") as [zone |]; [| congruence].
    destruct (getitem zone "id") as [id |]; [| congruence].
    destruct (getitem device "description") as [description |]; [| discriminate].
    destruct (getitem description "name") as [name' |]; [| discriminate].
    match goal with
    | |- context [update_properties device ?s] =>
        pose proof (update_properties_returns device s Hwf) as Hret;
        destruct (update_properties device s) as [self' r]
    end.
    cbn [snd] in Hret. subst r. eauto.
Qed.

(** X8. A built entity holds the client and the module id it was given,
    the zone id and the name of its snapshot, and a unique id made of the
    module id and the zone id. *)
Theorem TechThermostat_init_identity
        (device : pyval) (api : Tech) (udid : pyval) (t : TechThermostat) :
  TechThermostat_init device api udid = Ok t ->
  _api t = api
  /\ _udid t = udid
  /\ getpath device ["zone"; "id"] = Some (_id t)
  /\ _attr_unique_id t = (udid, _id t)
  /\ getpath device ["description"; "name"] = Some (_attr_name t)
  /\ _attr_device_info_name t = _attr_name t.
Proof.
  unfold TechThermostat_init, and_then.
  derive_cases; intros [= <-]; repeat split.
Qed.

(** X9. A built entity starts with a supported mode, one of the three
    actions the derivation assigns, and temperatures that are floats or
    unknown; a reading that the first snapshot gives as null is unknown. *)
Theorem TechThermostat_init_derived_state
        (device : pyval) (api : Tech) (udid : pyval) (t : TechThermostat) :
  TechThermostat_init device api udid = Ok t ->
  derived_state_ok t
  /\ (getpath device ["zone"; "setTemperature"] = Some VNone ->
      _attr_target_temperature t = VNone)
  /\ (getpath device ["zone"; "currentTemperature"] = Some VNone ->
      _attr_current_temperature t = VNone)
  /\ (getpath device ["zone"; "humidity"] = Some VNone ->
      _attr_current_humidity t = VNone).
Proof.
  unfold TechThermostat_init, and_then, derived_state_ok, temperature_typed,
    SUPPORT_HVAC.
  derive_cases; intros [= <-]; fields;
    repeat match goal with
           | H : truediv_10 _ = Ok _ |- _ => apply truediv_10_gives_float in H; destruct H
           end;
    subst; repeat split; cbn [In];
    try match goal with
        | |- context [if ?c then _ else _] => destruct c
        end;
    eauto 10;
    intros [= ->]; try reflexivity; discriminate.
Qed.

(** * The methods over the life of an entity *)

Lemma async_update_entity (self : TechThermostat) (w : io) :
  entity_after (async_update (self, w))
  = match Tech_get_zone (_api self) (calls w) (_udid self) (_id self) with
    | Ok device => fst (update_properties device self)
    | Raise _ => self
    end.
Proof.
  unfold entity_after, async_update, get_zone. run_py.
  destruct (Tech_get_zone _ _ _ _) as [device | e]; run_py.
  - destruct (update_properties device self) as [self' [[] | e]]; run_py;
      [| destruct (is_Exception e)]; reflexivity.
  - destruct (is_Exception e); reflexivity.
Qed.

Lemma async_set_temperature_entity
      (kwargs : list (string * pyval)) (self : TechThermostat) (w : io) :
  entity_after (async_set_temperature kwargs (self, w)) = self.
Proof.
  unfold entity_after, async_set_temperature, set_const_temp.
  destruct (is_not_None _); [| reflexivity]. run_py.
  destruct (Tech_set_const_temp _ _ _ _ _) as [[] | e]; run_py;
    [| destruct (is_Exception e)]; reflexivity.
Qed.

Lemma async_set_hvac_mode_entity
      (hvac_mode : string) (self : TechThermostat) (w : io) :
  entity_after (async_set_hvac_mode hvac_mode (self, w)) = self.
Proof.
  unfold entity_after, async_set_hvac_mode, set_zone. run_py.
  destruct (Tech_set_zone _ _ _ _ _) as [[] | e]; run_py;
    [| destruct (is_Exception e)]; reflexivity.
Qed.

Lemma update_properties_preserves_ok (device : pyval) (self : TechThermostat) :
  derived_state_ok self -> derived_state_ok (fst (update_properties device self)).
Proof.
  unfold derived_state_ok, temperature_typed, SUPPORT_HVAC.
  intros (Hmode & Haction & Htarget & Hcurrent).
  derive_cases; fields;
    repeat match goal with
           | H : truediv_10 _ = Ok _ |- _ =>
               apply truediv_10_gives_float in H; destruct H
           end;
    subst; repeat split; cbn [In];
    try match goal with
        | |- context [if ?c then _ else _] => destruct c
        end;
    eauto 10.
Qed.

(** X10. A refresh whose fetch succeeds asks the client once, leaves the
    entity in the state the derivation leaves, and returns normally; it logs
    nothing when the derivation returns, and when the derivation raises it
    logs the exception under the name the entity has by then. *)
Theorem async_update_fetched
        (self : TechThermostat) (w : io) (device : pyval) :
  Tech_get_zone (_api self) (calls w) (_udid self) (_id self) = Ok device ->
  outcome (async_update (self, w)) = Ok tt
  /\ entity_after (async_update (self, w)) = fst (update_properties device self)
  /\ calls (io_after (async_update (self, w)))
     = calls w ++ [Call_get_zone (_udid self) (_id self)]
  /\ logged (io_after (async_update (self, w)))
     = match snd (update_properties device self) with
       | Ok _ => logged w
       | Raise e =>
           logged w
           ++ [update_failed (_attr_name (fst (update_properties device self))) e]
       end.
Proof.
  intros Hfetch.
  unfold outcome, entity_after, io_after, async_update, get_zone. run_py.
  rewrite Hfetch. run_py.
  pose proof (update_properties_raises_Exception device self) as Herr.
  destruct (update_properties device self) as [self' [[] | e]]; run_py.
  - repeat split.
  - cbn [snd] in Herr. rewrite (Herr e eq_refl). repeat split.
Qed.

(** X11. None of the three methods lets an error out: a call returns, or
    it raises a signal that is not an [Exception] (and then the client raised
    it). *)
Theorem call_method_raises_no_error (c : method_call) (st : adapter_state) :
  outcome (call_method c st) = Ok tt
  \/ exists e, outcome (call_method c st) = Raise e /\ is_Exception e = false.
Proof.
  destruct st as [self w].
  destruct c as [| kwargs | hvac_mode]; unfold outcome; cbn [call_method].
  - unfold async_update, get_zone. run_py.
    destruct (Tech_get_zone _ _ _ _) as [device | e]; run_py.
    + pose proof (update_properties_raises_Exception device self) as Herr.
      destruct (update_properties device self) as [self' [[] | e]]; run_py;
        [now left |].
      cbn [snd] in Herr. rewrite (Herr e eq_refl). now left.
    + destruct (is_Exception e) eqn:He; [now left | right; eauto].
  - unfold async_set_temperature, set_const_temp.
    destruct (is_not_None _); [| now left]. run_py.
    destruct (Tech_set_const_temp _ _ _ _ _) as [[] | e]; run_py; [now left |].
    destruct (is_Exception e) eqn:He; [now left | right; eauto].
  - unfold async_set_hvac_mode, set_zone. run_py.
    destruct (Tech_set_zone _ _ _ _ _) as [[] | e]; run_py; [now left |].
    destruct (is_Exception e) eqn:He; [now left | right; eauto].
Qed.

Lemma call_method_entity (c : method_call) (self : TechThermostat) (w : io) :
  fst (fst (call_method c (self, w))) = self
  \/ exists device, fst (fst (call_method c (self, w)))
                    = fst (update_properties device self).
Proof.
  destruct c as [| kwargs | hvac_mode]; cbn [call_method].
  - fold (entity_after (async_update (self, w))). rewrite async_update_entity.
    destruct (Tech_get_zone _ _ _ _); eauto.
  - left. apply async_set_temperature_entity.
  - left. apply async_set_hvac_mode_entity.
Qed.

Lemma update_properties_frame (device : pyval) (self : TechThermostat) :
  _api (fst (update_properties device self)) = _api self
  /\ _id (fst (update_properties device self)) = _id self
  /\ _udid (fst (update_properties device self)) = _udid self
  /\ _attr_unique_id (fst (update_properties device self)) = _attr_unique_id self
  /\ _attr_device_info_name (fst (update_properties device self))
     = _attr_device_info_name self.
Proof.
  derive_cases; repeat split.
Qed.

Lemma call_methods_preserve (cs : list method_call) :
  forall (self : TechThermostat) (w : io),
    _api (fst (call_methods cs (self, w))) = _api self
    /\ same_identity self (fst (call_methods cs (self, w)))
    /\ (derived_state_ok self -> derived_state_ok (fst (call_methods cs (self, w)))).
Proof.
  induction cs as [| c rest IH]; intros self w; cbn [call_methods].
  - cbn [fst]. split; [reflexivity | split; [repeat split | auto]].
  - pose proof (call_method_entity c self w) as Hstep.
    destruct (call_method c (self, w)) as [[self' w'] r].
    cbn [fst] in *.
    destruct (IH self' w') as (Hapi & Hid & Hok).
    destruct Hstep as [-> | [device ->]];
      [exact (conj Hapi (conj Hid Hok)) |].
    destruct (update_properties_frame device self) as (F1 & F2 & F3 & F4 & F5).
    unfold same_identity in *. destruct Hid as (I1 & I2 & I3 & I4).
    split; [congruence | split; [repeat split; congruence |]].
    intros Hself. apply Hok. now apply update_properties_preserves_ok.
Qed.

Lemma TechThermostat_init_ok
      (device : pyval) (api : Tech) (udid : pyval) (t : TechThermostat) :
  TechThermostat_init device api udid = Ok t -> _api t = api /\ derived_state_ok t.
Proof.
  unfold TechThermostat_init, and_then, derived_state_ok, temperature_typed,
    SUPPORT_HVAC.
  derive_cases; intros [= <-]; fields;
    repeat match goal with
           | H : truediv_10 _ = Ok _ |- _ =>
               apply truediv_10_gives_float in H; destruct H
           end;
    subst; repeat split; cbn [In];
    try match goal with
        | |- context [if ?c then _ else _] => destruct c
        end;
    eauto 10.
Qed.

(** X12. Whatever the host calls on a built entity, in whatever order and
    whatever the client answers, the entity keeps its client, zone id, module
    id and unique id, its mode stays among the supported modes, its action
    among heating, idle and off, and its temperatures floats or unknown. *)
Theorem call_methods_invariant
        (device : pyval) (api : Tech) (udid : pyval) (t : TechThermostat)
        (cs : list method_call) (w : io) :
  TechThermostat_init device api udid = Ok t ->
  _api (fst (call_methods cs (t, w))) = api
  /\ same_identity t (fst (call_methods cs (t, w)))
  /\ derived_state_ok (fst (call_methods cs (t, w))).
Proof.
  intros Hinit.
  destruct (TechThermostat_init_ok device api udid t Hinit) as [Hapi Hok].
  destruct (call_methods_preserve cs t w) as (Hapi' & Hid & Hok').
  split; [congruence | split; [exact Hid | now apply Hok']].
Qed.

(** X13. Commands never write the cache: after any sequence of
    set-temperature and set-mode calls, whether the client accepts or
    rejects them, the entity is exactly the one before. *)
Theorem call_methods_commands_only
        (cs : list method_call) (self : TechThermostat) (w : io) :
  Forall (fun c => c <> Refresh) cs ->
  fst (call_methods cs (self, w)) = self.
Proof.
  intros Hcs. revert w.
  induction Hcs as [| c rest Hc _ IH]; intros w; cbn [call_methods];
    [reflexivity |].
  assert (Hstep : fst (fst (call_method c (self, w))) = self).
  { destruct c as [| kwargs | hvac_mode]; [congruence | |]; cbn [call_method].
    - apply async_set_temperature_entity.
    - apply async_set_hvac_mode_entity. }
  destruct (call_method c (self, w)) as [[self' w'] r].
  cbn [fst] in *. subst self'. apply IH.
Qed.

Lemma call_method_io (c : method_call) (st : adapter_state) :
  exists new_calls new_records,
    calls (snd (fst (call_method c st))) = calls (snd st) ++ new_calls
    /\ logged (snd (fst (call_method c st))) = logged (snd st) ++ new_records
    /\ (length new_calls <= 1)%nat
    /\ (length new_records <= length new_calls)%nat.
Proof.
  destruct st as [self w].
  destruct c as [| kwargs | hvac_mode]; cbn [call_method].
  - unfold async_update, get_zone. run_py.
    destruct (Tech_get_zone _ _ _ _) as [device | e]; run_py.
    + destruct (update_properties device self) as [self' [[] | e]]; run_py;
        [| destruct (is_Exception e)]; cbn [calls logged];
        first [ exists [Call_get_zone (_udid self) (_id self)], [];
                rewrite app_nil_r; repeat split; cbn; lia
              | eexists [_], [_]; repeat split; cbn; lia ].
    + destruct (is_Exception e); cbn [calls logged];
        first [ exists [Call_get_zone (_udid self) (_id self)], [];
                rewrite app_nil_r; repeat split; cbn; lia
              | eexists [_], [_]; repeat split; cbn; lia ].
  - unfold async_set_temperature, set_const_temp.
    destruct (is_not_None _);
      [| exists [], []; cbn [fst snd ret]; rewrite !app_nil_r; repeat split; cbn; lia].
    run_py.
    destruct (Tech_set_const_temp _ _ _ _ _) as [[] | e]; run_py;
      [| destruct (is_Exception e)]; cbn [calls logged];
      first [ eexists [_], []; rewrite app_nil_r; repeat split; cbn; lia
            | eexists [_], [_]; repeat split; cbn; lia ].
  - unfold async_set_hvac_mode, set_zone. run_py.
    destruct (Tech_set_zone _ _ _ _ _) as [[] | e]; run_py;
      [| destruct (is_Exception e)]; cbn [calls logged];
      first [ eexists [_], []; rewrite app_nil_r; repeat split; cbn; lia
            | eexists [_], [_]; repeat split; cbn; lia ].
Qed.

(** X14. The history of client calls and the log only grow, by at most one
    client call per method call and at most one log record per client
    call. *)
Theorem call_methods_io_grows (cs : list method_call) (st : adapter_state) :
  exists new_calls new_records,
    calls (snd (call_methods cs st)) = calls (snd st) ++ new_calls
    /\ logged (snd (call_methods cs st)) = logged (snd st) ++ new_records
    /\ (length new_calls <= length cs)%nat
    /\ (length new_records <= length new_calls)%nat.
Proof.
  revert st. induction cs as [| c rest IH]; intros st; cbn [call_methods].
  - exists [], []. rewrite !app_nil_r. repeat split; cbn; lia.
  - destruct (call_method_io c st) as (c1 & r1 & Hc1 & Hr1 & Hn1 & Hm1).
    destruct (IH (fst (call_method c st))) as (c2 & r2 & Hc2 & Hr2 & Hn2 & Hm2).
    exists (c1 ++ c2), (r1 ++ r2).
    rewrite Hc2, Hr2, Hc1, Hr1, <- !app_assoc, !length_app.
    repeat split; cbn [length]; lia.
Qed.

(** * Further properties of the setup routine *)

(** X15. The client and the module id are read before the [try]: when
    either read fails, its exception leaves [async_setup_entry], and the
    client, the log and the host have not been touched. *)
Theorem async_setup_entry_config_error
        (DOMAIN : string) (Host : Type) (hass : HomeAssistant) (entry : ConfigEntry)
        (async_add_entities : generator -> Py Host unit)
        (h : Host) (w : io) (e : exn) :
  setup_config DOMAIN hass entry = Raise e ->
  async_setup_entry DOMAIN hass entry async_add_entities (h, w) = ((h, w), Raise e).
Proof.
  unfold setup_config, and_then, async_setup_entry. run_py.
  destruct (lookup (hass_data hass) DOMAIN) as [apis |]; run_py;
    [| intros [= <-]; reflexivity].
  destruct (lookup apis (entry_id entry)) as [api |]; run_py;
    [| intros [= <-]; reflexivity].
  destruct (getitem (entry_data entry) "module") as [module |]; run_py;
    [| intros [= <-]; reflexivity].
  destruct (getitem module "udid") as [udid |]; run_py;
    [discriminate | intros [= <-]; reflexivity].
Qed.

(** X16. With the configuration read, and whatever the callback does, the
    setup routine asks the client for the zones exactly once and ends in one
    of three ways: True with nothing logged, False with the caught error
    logged, or a signal that is not an [Exception] passing through with
    nothing logged.  When the fetch raises, the callback is not called. *)
Theorem async_setup_entry_outcomes
        (DOMAIN : string) (Host : Type) (hass : HomeAssistant) (entry : ConfigEntry)
        (async_add_entities : generator -> Py Host unit)
        (api : Tech) (udid : pyval) (h : Host) (w : io) :
  setup_config DOMAIN hass entry = Ok (api, udid) ->
  let run := async_setup_entry DOMAIN hass entry async_add_entities (h, w) in
  calls (io_after run) = calls w ++ [Call_get_module_zones udid]
  /\ ((outcome run = Ok true /\ logged (io_after run) = logged w)
      \/ (exists e, is_Exception e = true
                    /\ outcome run = Ok false
                    /\ logged (io_after run) = logged w ++ [setup_failed e])
      \/ (exists e, is_Exception e = false
                    /\ outcome run = Raise e
                    /\ logged (io_after run) = logged w))
  /\ (forall e, Tech_get_module_zones api (calls w) udid = Raise e ->
                host_after run = h).
Proof.
  unfold setup_config, and_then, outcome, io_after, host_after,
    async_setup_entry, get_module_zones.
  run_py.
  destruct (lookup (hass_data hass) DOMAIN) as [apis |]; [| discriminate].
  destruct (lookup apis (entry_id entry)) as [api' |]; [| discriminate].
  destruct (getitem (entry_data entry) "module") as [module |]; [| discriminate].
  destruct (getitem module "udid") as [udid' |]; [| discriminate].
  intros [= -> ->]. run_py.
  destruct (Tech_get_module_zones api (calls w) udid) as [zones | e]; run_py.
  - destruct (async_add_entities _ h) as [h' [[] | e]]; run_py;
      [| destruct (is_Exception e) eqn:He]; cbn [calls logged];
      (split; [reflexivity | split; [| discriminate]]).
    + left. split; reflexivity.
    + right. left. exists e. repeat split. exact He.
    + right. right. exists e. repeat split. exact He.
  - destruct (is_Exception e) eqn:He; cbn [calls logged];
      (split; [reflexivity | split; [| reflexivity]]).
    + right. left. exists e. repeat split. exact He.
    + right. right. exists e. repeat split. exact He.
Qed.

(** X17. A generator that raises has yielded the entities of the zones
    before the first one whose entity cannot be built, and raises that
    zone's exception; the zones after it are not looked at. *)
Theorem genexpr_stops_at_first_failure
        (zones : list (Z * pyval)) (api : Tech) (udid : pyval)
        (keys : list Z) (entities : list TechThermostat) (e : exn) :
  genexpr zones api udid keys = (entities, Some e) ->
  exists done zone rest,
    keys = done ++ zone :: rest
    /\ Forall2 (fun k t => build_entity zones api udid k = Ok t) done entities
    /\ build_entity zones api udid zone = Raise e.
Proof.
  revert entities.
  induction keys as [| k keys IH]; intros entities; cbn [genexpr];
    [discriminate |].
  fold (build_entity zones api udid k).
  destruct (build_entity zones api udid k) as [t | e'] eqn:Ebuild.
  - destruct (genexpr zones api udid keys) as [ts ex].
    intros [= <- ->].
    destruct (IH ts eq_refl) as (done & zone & rest & -> & Hdone & Hzone).
    exists (k :: done), zone, rest. repeat split; [constructor |]; assumption.
  - intros [= <- <-]. exists [], k, keys. repeat split; [constructor | assumption].
Qed.

Lemma zones_getitem_distinct (zones : list (Z * pyval)) (zone : Z) (device : pyval) :
  NoDup (dict_keys zones) -> In (zone, device) zones ->
  zones_getitem zones zone = Ok device.
Proof.
  unfold zones_getitem, dict_keys.
  induction zones as [| [k v] zones IH]; cbn [map fst dict_get In];
    intros Hnodup Hin; [contradiction |].
  inversion Hnodup as [| ? ? Hk Hrest]; subst.
  destruct Hin as [[= -> ->] | Hin].
  - now rewrite Z.eqb_refl.
  - destruct (Z.eqb_spec k zone) as [-> | _]; [| now apply IH].
    exfalso. apply Hk. now apply (in_map fst _ (zone, device)).
Qed.

Lemma genexpr_values
      (zones : list (Z * pyval)) (api : Tech) (udid : pyval) :
  NoDup (dict_keys zones) ->
  forall (part : list (Z * pyval)) (entities : list TechThermostat),
    incl part zones ->
    (genexpr zones api udid (dict_keys part) = (entities, None)
     <-> Forall2 (fun kv t => TechThermostat_init (snd kv) api udid = Ok t)
                 part entities).
Proof.
  intros Hnodup.
  induction part as [| [k v] part IH]; intros entities Hincl;
    cbn [dict_keys map fst genexpr].
  - split.
    + intros [= <-]. constructor.
    + intros H. inversion H. reflexivity.
  - rewrite (zones_getitem_distinct zones k v Hnodup (Hincl _ (or_introl eq_refl))).
    cbn [and_then].
    assert (Hpart : incl part zones) by (intros x Hx; apply Hincl; now right).
    fold (dict_keys part).
    destruct (TechThermostat_init v api udid) as [t | e] eqn:Einit.
    + destruct (genexpr zones api udid (dict_keys part)) as [ts ex] eqn:Egen.
      split.
      * intros [= <- ->]. constructor; [exact Einit |].
        now apply IH.
      * intros H. inversion H as [| ? t' ? ts' Ht Hts]; subst.
        cbn [snd] in Ht. rewrite Einit in Ht. injection Ht as <-.
        apply (IH ts' Hpart) in Hts. now injection Hts as <- <-.
    + split; [discriminate |].
      intros H. inversion H as [| ? t' ? ts' Ht Hts]; subst.
      cbn [snd] in Ht. congruence.
Qed.

(** X18. When the keys of the mapping are distinct, as the keys of a dict
    are, the generator is exhausted without raising exactly when every
    snapshot of the mapping yields an entity, and then the entities are those
    of the snapshots, in the order of the mapping. *)
Theorem genexpr_one_entity_per_snapshot
        (zones : list (Z * pyval)) (api : Tech) (udid : pyval)
        (entities : list TechThermostat) :
  NoDup (dict_keys zones) ->
  (genexpr zones api udid (dict_keys zones) = (entities, None)
   <-> Forall2 (fun kv t => TechThermostat_init (snd kv) api udid = Ok t)
               zones entities).
Proof.
  intros Hnodup. apply genexpr_values; [exact Hnodup | apply incl_refl].
Qed.

(** * What the setup routine hands to the host *)

Lemma genexpr_failure_values
      (zones : list (Z * pyval)) (api : Tech) (udid : pyval) :
  NoDup (dict_keys zones) ->
  forall (part : list (Z * pyval)) (entities : list TechThermostat) (e : exn),
    incl part zones ->
    genexpr zones api udid (dict_keys part) = (entities, Some e) ->
    exists done kv rest,
      part = done ++ kv :: rest
      /\ Forall2 (fun kv t => TechThermostat_init (snd kv) api udid = Ok t)
                 done entities
      /\ TechThermostat_init (snd kv) api udid = Raise e.
Proof.
  intros Hnodup.
  induction part as [| [k v] part IH]; intros entities e Hincl;
    cbn [dict_keys map fst genexpr]; [discriminate |].
  rewrite (zones_getitem_distinct zones k v Hnodup (Hincl _ (or_introl eq_refl))).
  cbn [and_then].
  assert (Hpart : incl part zones) by (intros x Hx; apply Hincl; now right).
  fold (dict_keys part).
  destruct (TechThermostat_init v api udid) as [t | e'] eqn:Einit.
  - destruct (genexpr zones api udid (dict_keys part)) as [ts ex] eqn:Egen.
    intros [= <- ->].
    destruct (IH ts e Hpart eq_refl) as (done & kv & rest & -> & Hdone & Hkv).
    exists ((k, v) :: done), kv, rest.
    repeat split; [constructor |]; assumption.
  - intros [= <- <-]. exists [], (k, v), part.
    repeat split; [constructor | exact Einit].
Qed.

(** C6 (amended). With the client and the module id found in the
    configuration, the setup routine asks the client once for the module's
    zones.  If the fetch raises an error, the callback is not called: the
    host is untouched, the error is logged and the result is False.  If the
    fetch succeeds, the routine registers nothing itself: the host changes
    only through one call of the callback, on a generator that yields, in the
    order of the mapping, one entity per zone built from that zone's
    snapshot, and that raises at the first zone whose entity cannot be built,
    after the entities of the zones before it.  The result is True when the
    callback returns; when the callback raises an error, the error is logged
    and the result is False. *)
Theorem async_setup_entry_hands_over
        (DOMAIN : string) (Host : Type)
        (async_add_entities : generator -> Py Host unit)
        (hass : HomeAssistant) (entry : ConfigEntry)
        (apis : list (string * Tech)) (api : Tech) (module udid : pyval)
        (h : Host) (w : io) :
  lookup (hass_data hass) DOMAIN = Ok apis ->
  lookup apis (entry_id entry) = Ok api ->
  getitem (entry_data entry) "module" = Ok module ->
  getitem module "udid" = Ok udid ->
  let run := async_setup_entry DOMAIN hass entry async_add_entities (h, w) in
  calls (io_after run) = calls w ++ [Call_get_module_zones udid]
  /\ match Tech_get_module_zones api (calls w) udid with
     | Raise e =>
         is_Exception e = true ->
         outcome run = Ok false
         /\ host_after run = h
         /\ logged (io_after run) = logged w ++ [setup_failed e]
     | Ok zones =>
         NoDup (dict_keys zones) ->
         exists g : generator,
           ((exists entities,
                g = (entities, None)
                /\ Forall2 (fun kv t =>
                              TechThermostat_init (snd kv) api udid = Ok t)
                           zones entities)
            \/ (exists done kv rest entities e,
                   g = (entities, Some e)
                   /\ zones = done ++ kv :: rest
                   /\ Forall2 (fun kv t =>
                                 TechThermostat_init (snd kv) api udid = Ok t)
                              done entities
                   /\ TechThermostat_init (snd kv) api udid = Raise e))
           /\ host_after run = fst (async_add_entities g h)
           /\ match snd (async_add_entities g h) with
              | Ok _ =>
                  outcome run = Ok true
                  /\ logged (io_after run) = logged w
              | Raise e' =>
                  if is_Exception e' then
                    outcome run = Ok false
                    /\ logged (io_after run) = logged w ++ [setup_failed e']
                  else
                    outcome run = Raise e'
                    /\ logged (io_after run) = logged w
              end
     end.
Proof.
  intros Hapis Hapi Hmodule Hudid run. subst run.
  unfold outcome, host_after, io_after, async_setup_entry, get_module_zones.
  run_py. rewrite Hapis. run_py. rewrite Hapi. run_py.
  rewrite Hmodule. run_py. rewrite Hudid. run_py.
  destruct (Tech_get_module_zones api (calls w) udid) as [zones | e]; run_py.
  - split.
    + destruct (async_add_entities _ h) as [h' [[] | e']]; run_py;
        [| destruct (is_Exception e')]; reflexivity.
    + intros Hnodup.
      exists (genexpr zones api udid (dict_keys zones)). split.
      * destruct (genexpr zones api udid (dict_keys zones))
          as [entities [e |]] eqn:Egen.
        -- right.
           destruct (genexpr_failure_values zones api udid Hnodup zones entities e
                                            (incl_refl zones) Egen)
             as (done & kv & rest & Hzones & Hdone & Hkv).
           exists done, kv, rest, entities, e. repeat split; assumption.
        -- left. exists entities. split; [reflexivity |].
           now apply (genexpr_values zones api udid Hnodup zones entities
                                     (incl_refl zones)).
      * destruct (async_add_entities _ h) as [h' [[] | e']]; run_py;
          [| destruct (is_Exception e')]; repeat split.
  - destruct (is_Exception e); (split; [reflexivity |]); intros He;
      [repeat split | discriminate He].
Qed.

(** C6 (as stated) fails.  The client returns two zones, the second with an
    empty snapshot, and the host registers entities as it iterates: the fetch
    succeeded, yet the hall entity alone is registered and the result is
    False. *)
Lemma async_setup_entry_partial_registration :
  Tech_get_module_zones (steady_api broken_zones VNone) [] (VStr "a1b2")
  = Ok broken_zones
  /\ async_setup_entry "tech" (sample_hass (steady_api broken_zones VNone))
                       sample_entry incremental_add_entities ([], idle_io)
     = (([hall_thermostat (steady_api broken_zones VNone)],
         {| calls := [Call_get_module_zones (VStr "a1b2")];
            logged := [setup_failed (KeyError "zone")] |}),
        Ok false).
Proof.
  split; reflexivity.
Qed.

(** * The further properties at concrete inputs *)

Lemma update_properties_reads_snapshot_witness :
  _attr_name (fst (update_properties (example_snapshot (VStr "Bath") (VInt 102))
                                     (sample_thermostat offline_api)))
  = VStr "Bath"
  /\ truediv_10 (VInt 215)
     = Ok (_attr_target_temperature
             (fst (update_properties (example_snapshot (VStr "Bath") (VInt 102))
                                     (sample_thermostat offline_api))))
  /\ _attr_current_humidity
       (fst (update_properties (example_snapshot (VStr "Bath") (VInt 102))
                               (sample_thermostat offline_api)))
     = VInt 45.
Proof.
  destruct (update_properties_reads_snapshot
              (example_snapshot (VStr "Bath") (VInt 102))
              (sample_thermostat offline_api)
              (VStr "Bath") (VInt 215) (VInt 198) (VInt 45)
              eq_refl eq_refl eq_refl eq_refl eq_refl)
    as (Hname & Htarget & _ & Hhumidity).
  split; [exact Hname | split].
  - apply Htarget. discriminate.
  - apply Hhumidity. discriminate.
Defined.

(** No zone state: the derivation raises after the action, and the mode of
    the sample entity stays off. *)
Lemma update_properties_raise_keeps_mode_witness :
  _attr_hvac_mode
    (fst (update_properties (snapshot_without_zone_state (VStr "Hall") (VInt 101))
                            (sample_thermostat offline_api)))
  = HVACMode_OFF.
Proof.
  exact (update_properties_raise_keeps_mode
           (snapshot_without_zone_state (VStr "Hall") (VInt 101))
           (sample_thermostat offline_api) (KeyError "zoneState") eq_refl).
Defined.

Lemma update_properties_forgets_prior_witness :
  _attr_target_temperature
    (fst (update_properties (example_snapshot (VStr "Hall") (VInt 101))
                            (sample_thermostat offline_api)))
  = _attr_target_temperature
      (fst (update_properties (example_snapshot (VStr "Hall") (VInt 101))
                              (hall_thermostat offline_api)))
  /\ _attr_hvac_mode
       (fst (update_properties (example_snapshot (VStr "Hall") (VInt 101))
                               (sample_thermostat offline_api)))
     = _attr_hvac_mode
         (fst (update_properties (example_snapshot (VStr "Hall") (VInt 101))
                                 (hall_thermostat offline_api))).
Proof.
  assert (H215 : VInt 215 <> VNone) by discriminate.
  assert (H198 : VInt 198 <> VNone) by discriminate.
  assert (H45 : VInt 45 <> VNone) by discriminate.
  destruct (update_properties_forgets_prior
              (example_snapshot (VStr "Hall") (VInt 101))
              (sample_thermostat offline_api) (hall_thermostat offline_api)
              (VInt 215) (VInt 198) (VInt 45)
              eq_refl eq_refl H215 eq_refl H198 eq_refl H45)
    as (_ & Htarget & _ & _ & _ & Hmode).
  split; assumption.
Defined.

Lemma TechThermostat_init_identity_witness :
  _api (hall_thermostat offline_api) = offline_api
  /\ _udid (hall_thermostat offline_api) = VStr "a1b2"
  /\ getpath (example_snapshot (VStr "Hall") (VInt 101)) ["zone"; "id"]
     = Some (_id (hall_thermostat offline_api))
  /\ _attr_unique_id (hall_thermostat offline_api)
     = (VStr "a1b2", _id (hall_thermostat offline_api))
  /\ getpath (example_snapshot (VStr "Hall") (VInt 101)) ["description"; "name"]
     = Some (_attr_name (hall_thermostat offline_api))
  /\ _attr_device_info_name (hall_thermostat offline_api)
     = _attr_name (hall_thermostat offline_api).
Proof.
  exact (TechThermostat_init_identity
           (example_snapshot (VStr "Hall") (VInt 101)) offline_api (VStr "a1b2")
           (hall_thermostat offline_api) eq_refl).
Defined.

Lemma TechThermostat_init_derived_state_witness :
  derived_state_ok (hall_thermostat offline_api).
Proof.
  exact (proj1 (TechThermostat_init_derived_state
                  (example_snapshot (VStr "Hall") (VInt 101)) offline_api
                  (VStr "a1b2") (hall_thermostat offline_api) eq_refl)).
Defined.

(** The sample entity refreshed with the worked example renamed "Kitchen". *)
Lemma async_update_fetched_witness :
  outcome (async_update
             (sample_thermostat
                (steady_api [] (example_snapshot (VStr "Kitchen") (VInt 101))),
              idle_io)) = Ok tt
  /\ _attr_hvac_mode
       (entity_after
          (async_update
             (sample_thermostat
                (steady_api [] (example_snapshot (VStr "Kitchen") (VInt 101))),
              idle_io))) = HVACMode_HEAT
  /\ logged
       (io_after
          (async_update
             (sample_thermostat
                (steady_api [] (example_snapshot (VStr "Kitchen") (VInt 101))),
              idle_io))) = [].
Proof.
  destruct (async_update_fetched
              (sample_thermostat
                 (steady_api [] (example_snapshot (VStr "Kitchen") (VInt 101))))
              idle_io (example_snapshot (VStr "Kitchen") (VInt 101)) eq_refl)
    as (Hret & Hself & _ & Hlog).
  split; [exact Hret | split].
  - rewrite Hself. reflexivity.
  - rewrite Hlog. reflexivity.
Defined.

(** The hall entity over a day with a client that keeps answering with a
    snapshot that lacks [flags]. *)
Lemma call_methods_invariant_witness :
  _api (fst (call_methods
               sample_calls
               (hall_thermostat
                  (steady_api [] (snapshot_without_flags (VStr "Hall") (VInt 101))),
                idle_io)))
  = steady_api [] (snapshot_without_flags (VStr "Hall") (VInt 101))
  /\ same_identity
       (hall_thermostat
          (steady_api [] (snapshot_without_flags (VStr "Hall") (VInt 101))))
       (fst (call_methods
               sample_calls
               (hall_thermostat
                  (steady_api [] (snapshot_without_flags (VStr "Hall") (VInt 101))),
                idle_io)))
  /\ derived_state_ok
       (fst (call_methods
               sample_calls
               (hall_thermostat
                  (steady_api [] (snapshot_without_flags (VStr "Hall") (VInt 101))),
                idle_io))).
Proof.
  exact (call_methods_invariant
           (example_snapshot (VStr "Hall") (VInt 101))
           (steady_api [] (snapshot_without_flags (VStr "Hall") (VInt 101)))
           (VStr "a1b2")
           (hall_thermostat
              (steady_api [] (snapshot_without_flags (VStr "Hall") (VInt 101))))
           sample_calls idle_io eq_refl).
Defined.

(** Two commands sent to an offline client. *)
Lemma call_methods_commands_only_witness :
  fst (call_methods [SetTemperature [("temperature", VFloat 22%float)];
                     SetHvacMode "heat"]
                    (hall_thermostat offline_api, idle_io))
  = hall_thermostat offline_api.
Proof.
  apply call_methods_commands_only.
  repeat constructor; discriminate.
Defined.

Lemma async_setup_entry_config_error_witness :
  async_setup_entry "tech" (sample_hass offline_api) entry_without_module
                    eager_add_entities ([], idle_io)
  = (([], idle_io), Raise (KeyError "module")).
Proof.
  apply async_setup_entry_config_error. reflexivity.
Defined.

(** An offline client at setup: one call, False, one record. *)
Lemma async_setup_entry_outcomes_witness :
  calls (io_after (async_setup_entry "tech" (sample_hass offline_api) sample_entry
                                     eager_add_entities ([], idle_io)))
  = [Call_get_module_zones (VStr "a1b2")]
  /\ host_after (async_setup_entry "tech" (sample_hass offline_api) sample_entry
                                   eager_add_entities ([], idle_io))
     = [].
Proof.
  destruct (async_setup_entry_outcomes
              "tech" (list TechThermostat) (sample_hass offline_api) sample_entry
              eager_add_entities offline_api (VStr "a1b2") [] idle_io eq_refl)
    as (Hcalls & _ & Hhost).
  split; [exact Hcalls |].
  exact (Hhost (OtherException "ClientError") eq_refl).
Defined.

(** The mapping whose second snapshot is empty: the hall is yielded, then
    the [KeyError] of zone 102. *)
Lemma genexpr_stops_at_first_failure_witness :
  exists done zone rest,
    dict_keys broken_zones = done ++ zone :: rest
    /\ Forall2 (fun k t => build_entity broken_zones offline_api (VStr "a1b2") k = Ok t)
               done [hall_thermostat offline_api]
    /\ build_entity broken_zones offline_api (VStr "a1b2") zone
       = Raise (KeyError "zone").
Proof.
  apply (genexpr_stops_at_first_failure
           broken_zones offline_api (VStr "a1b2") (dict_keys broken_zones)
           [hall_thermostat offline_api] (KeyError "zone")).
  reflexivity.
Defined.

Lemma genexpr_one_entity_per_snapshot_witness :
  Forall2 (fun kv t => TechThermostat_init (snd kv) offline_api (VStr "a1b2") = Ok t)
          sample_zones
          (fst (genexpr sample_zones offline_api (VStr "a1b2") (dict_keys sample_zones))).
Proof.
  apply (proj1 (genexpr_one_entity_per_snapshot
                  sample_zones offline_api (VStr "a1b2")
                  (fst (genexpr sample_zones offline_api (VStr "a1b2")
                                (dict_keys sample_zones)))
                  ltac:(repeat constructor; cbn; intuition discriminate))).
  reflexivity.
Defined.

(** The sample module with a host that registers as it iterates: both
    entities are registered, named after their zones, and the result is
    True. *)
Lemma async_setup_entry_hands_over_witness :
  outcome (async_setup_entry "tech" (sample_hass (steady_api sample_zones VNone))
                             sample_entry incremental_add_entities ([], idle_io))
  = Ok true
  /\ map _attr_name
         (host_after
            (async_setup_entry "tech" (sample_hass (steady_api sample_zones VNone))
                               sample_entry incremental_add_entities ([], idle_io)))
     = [VStr "Hall"; VStr "Bath"].
Proof.
  pose proof (async_setup_entry_hands_over
                "tech" (list TechThermostat) incremental_add_entities
                (sample_hass (steady_api sample_zones VNone)) sample_entry
                [("entry-1", steady_api sample_zones VNone)]
                (steady_api sample_zones VNone)
                (VDict [("udid", VStr "a1b2")]) (VStr "a1b2")
                [] idle_io eq_refl eq_refl eq_refl eq_refl) as H.
  cbv zeta in H. destruct H as [_ H].
  cbn [Tech_get_module_zones steady_api] in H.
  assert (Hnodup : NoDup (dict_keys sample_zones))
    by (repeat constructor; cbn; intuition discriminate).
  destruct (H Hnodup) as (g & Hg & Hhost & Hret).
  destruct Hg as [(entities & -> & Hall) | (done & kv & rest & entities & e
                                            & -> & Hzones & Hdone & Hkv)].
  - inversion Hall as [| ? t1 ? l1 H1 Hrest]; subst.
    inversion Hrest as [| ? t2 ? l2 H2 Hnil]; subst.
    inversion Hnil; subst.
    vm_compute in H1. vm_compute in H2.
    injection H1 as <-. injection H2 as <-.
    split; [exact (proj1 Hret) |]. rewrite Hhost. reflexivity.
  - exfalso.
    assert (Hin : In kv sample_zones)
      by (rewrite Hzones; apply in_or_app; right; now left).
    destruct Hin as [<- | [<- | []]]; vm_compute in Hkv; discriminate Hkv.
Defined.
